(** * strip_pdf_metadata: the orchestration logic of [utils/strip_pdf_metadata.py]

    The script removes the document-information dictionary and the XMP
    packet from PDF files.  Its own code is three functions,
    [resolve_output_path], [strip_metadata] and [main]; everything else is
    pathlib, the operating system and pypdf.  The development below keeps
    that split:

    - [Pathlib]  the pure path operations the script calls;
    - [Pypdf]    the document capability (parse, decrypt, clone, clear,
                 serialise) over an abstract document;
    - [Fs]       the file system as a finite map, with the operating
                 system's refusals supplied by an oracle;
    - [Script]   the three functions of the script, line by line.  *)

From Stdlib Require Import ZArith Ascii String.
From stdpp Require Import gmap strings list.

Open Scope string_scope.

(* ===================================================================== *)
(** ** Exceptions and results                                             *)
(* ===================================================================== *)

(** The exception classes that the script raises itself or that reach it
    from the libraries.  All of them derive from [Exception], so the
    [except Exception] clause of [main] catches every one. *)
Inductive exn_class :=
  | ValueError
  | FileExistsError
  | FileNotFoundError
  | IsADirectoryError
  | OSError
  | RuntimeError
  | PdfReadError.

(** An exception value: its class and [str(exc)]. *)
Record exn := Exn { exn_cls : exn_class; exn_str : string }.

Inductive result (A : Type) :=
  | Ok (a : A)
  | Raise (e : exn).
Arguments Ok {A} a.
Arguments Raise {A} e.

#[global] Instance exn_class_eq_dec : EqDecision exn_class.
Proof. solve_decision. Defined.
#[global] Instance exn_eq_dec : EqDecision exn.
Proof. solve_decision. Defined.

(** Python truthiness of an [str | None] value: [None] and [""] are false. *)
Definition truthy (o : option string) : bool :=
  match o with
  | None => false
  | Some s => negb (String.eqb s "")
  end.

(* ===================================================================== *)
(** ** pathlib                                                            *)
(* ===================================================================== *)

Module Pathlib.

(** An absolute POSIX path is the list of its components below the root;
    [[]] is the root itself.  Equality of paths is equality of the
    component lists, as [PurePosixPath.__eq__] compares them. *)
Definition Path := list string.

(** [str.rfind(c)]: index of the last occurrence, -1 when there is none. *)
Fixpoint rfind (c : ascii) (s : string) : Z :=
  match s with
  | EmptyString => -1
  | String a s' =>
      let i := rfind c s' in
      if (0 <=? i)%Z then (i + 1)%Z
      else if Ascii.eqb a c then 0%Z else (-1)%Z
  end.

(** [s[:n]] and [s[n:]] for an index [0 <= n]. *)
Fixpoint str_take (n : nat) (s : string) : string :=
  match n, s with
  | S n', String a s' => String a (str_take n' s')
  | _, _ => EmptyString
  end.

Fixpoint str_drop (n : nat) (s : string) : string :=
  match n, s with
  | S n', String _ s' => str_drop n' s'
  | _, _ => s
  end.

(** [str.lower()].  Strings are byte strings; only the ASCII capitals have
    a lower-case form that can take part in a comparison with [".pdf"]. *)
Definition lower_ascii (a : ascii) : ascii :=
  let n := nat_of_ascii a in
  if (65 <=? n)%nat && (n <=? 90)%nat then ascii_of_nat (n + 32) else a.

Fixpoint lower (s : string) : string :=
  match s with
  | EmptyString => EmptyString
  | String a s' => String (lower_ascii a) (lower s')
  end.

(** [path.name]: the final component, [""] for the root. *)
Definition name (p : Path) : string := List.last p "".

(** [path.parent] for a path with a name. *)
Definition parent (p : Path) : Path := List.removelast p.

(** The index test shared by [suffix] and [stem]:
    [i = name.rfind('.')] and [0 < i < len(name) - 1]. *)
Definition suffix_index (nm : string) : option nat :=
  let i := rfind "." nm in
  if ((0 <? i) && (i <? Z.of_nat (String.length nm) - 1))%Z
  then Some (Z.to_nat i) else None.

(** [path.suffix]: [name[i:]] when the test holds, [""] otherwise. *)
Definition suffix (p : Path) : string :=
  match suffix_index (name p) with
  | Some i => str_drop i (name p)
  | None => ""
  end.

(** [path.stem]: [name[:i]] when the test holds, the whole name otherwise. *)
Definition stem (p : Path) : string :=
  match suffix_index (name p) with
  | Some i => str_take i (name p)
  | None => name p
  end.

(** [path.with_name(n)]: raises [ValueError] on a path without a name. *)
Definition with_name (p : Path) (n : string) : result Path :=
  if String.eqb (name p) ""
  then Raise (Exn ValueError "PosixPath('/') has an empty name")
  else Ok (parent p ++ [n])%list.

(** [str(path)]. *)
Fixpoint join_parts (p : Path) : string :=
  match p with
  | [] => ""
  | [c] => c
  | c :: rest => c +:+ "/" +:+ join_parts rest
  end.

Definition path_str (p : Path) : string := "/" +:+ join_parts p.

End Pathlib.
Export Pathlib.

(* ===================================================================== *)
(** ** pypdf                                                              *)
(* ===================================================================== *)

Module Pypdf.

(** pypdf is a library, not code of the script.  The script consumes six
    of its operations: parse from a path, the encrypted flag, decrypt with
    a password (reporting the match), full-document clone, clearing the two
    metadata fields, and serialise to a stream.  They are modelled here
    over an abstract document. *)

(** Modelled from the spec: what a full clone carries over besides the two
    metadata fields, "pages, structure, attachments". *)
Record Body := MkBody {
  pages : list string;
  structure : list string;
  attachments : list (string * string)
}.

(** The encryption dictionary, reduced to the two passwords it accepts. *)
Record Encryption := MkEncryption {
  user_password : string;
  owner_password : string
}.

(** Modelled from the spec: a document has an XMP packet and a
    document-information dictionary, each possibly absent, the rest of its
    object graph, and possibly an encryption dictionary. *)
Record Document := MkDocument {
  xmp_metadata : option string;
  info : option (list (string * string));
  body : Body;
  encryption : option Encryption
}.

(** [PdfReader]: the parsed document (the constructor reads the whole
    file into memory, so the reader does not depend on the file later). *)
Record PdfReader := MkReader { r_doc : Document }.

(** Modelled from the spec: the encrypted-flag query,
    [reader.is_encrypted]. *)
Definition is_encrypted (r : PdfReader) : bool :=
  match encryption (r_doc r) with
  | Some _ => true
  | None => false
  end.

(** Modelled from the spec: decrypt-with-password reporting the match,
    [reader.decrypt(password)].  The value is pypdf's [PasswordType] as an
    integer: 0 (not decrypted), 1 (user password) or 2 (owner password);
    the owner password is tried first.  On a document without encryption
    pypdf raises. *)
Definition decrypt (r : PdfReader) (password : string) : result Z :=
  match encryption (r_doc r) with
  | None => Raise (Exn PdfReadError "Not encrypted file")
  | Some enc =>
      if String.eqb password (owner_password enc) then Ok 2%Z
      else if String.eqb password (user_password enc) then Ok 1%Z
      else Ok 0%Z
  end.

(** [PdfWriter]: the fields the script assigns, and the cloned rest. *)
Record PdfWriter := MkWriter {
  w_xmp_metadata : option string;
  w_info : option (list (string * string));
  w_body : option Body
}.

(** [PdfWriter()]. *)
Definition new_writer : PdfWriter :=
  {| w_xmp_metadata := None; w_info := None; w_body := None |}.

(** Modelled from the spec: the full-document clone,
    [writer.clone_document_from_reader(reader)]: the whole object graph,
    metadata included. *)
Definition clone_document_from_reader (w : PdfWriter) (r : PdfReader)
  : PdfWriter :=
  {| w_xmp_metadata := xmp_metadata (r_doc r);
     w_info := info (r_doc r);
     w_body := Some (body (r_doc r)) |}.

(** Modelled from the spec: the two metadata-field clears, as the
    assignments [writer.xmp_metadata = v] and [writer._info = v]. *)
Definition set_xmp_metadata (w : PdfWriter) (v : option string) : PdfWriter :=
  {| w_xmp_metadata := v; w_info := w_info w; w_body := w_body w |}.

Definition set_info (w : PdfWriter) (v : option (list (string * string)))
  : PdfWriter :=
  {| w_xmp_metadata := w_xmp_metadata w; w_info := v; w_body := w_body w |}.

Definition empty_body : Body :=
  {| pages := []; structure := []; attachments := [] |}.

(** Modelled from the spec: serialise-to-stream.  This is the document
    that [writer.write] serialises; a writer never encrypts unless asked
    to, and the script does not ask. *)
Definition written_document (w : PdfWriter) : Document :=
  {| xmp_metadata := w_xmp_metadata w;
     info := w_info w;
     body := default empty_body (w_body w);
     encryption := None |}.

End Pypdf.
Export Pypdf.

(* ===================================================================== *)
(** ** The file system                                                    *)
(* ===================================================================== *)

Module Fs.

(** A regular file holds either the complete serialisation of a document
    or bytes that do not parse as a PDF (empty, truncated, foreign). *)
Inductive content :=
  | Pdf (d : Document)
  | Junk (bytes : string).

Inductive node :=
  | Dir
  | File (c : content).

(** The state of the file system: the existing paths and what is there.
    Every path is a file of its own: symbolic and hard links are not
    modelled, so a write through one name is never seen under another. *)
Abbreviation FileSys := (gmap Path node).

(** What the operating system may do beyond the modelled rules: it can
    refuse to open a file (permissions, a missing parent directory, a
    read-only volume), fail a write after some bytes (a full disk), refuse
    a rename; and it knows the home and working directories and the
    symbolic links that [Path(s).expanduser().resolve()] needs. *)
Record OS := MkOS {
  expand_resolve : string -> result Path;
  open_fault : FileSys -> Path -> option exn;
  write_fault : FileSys -> Path -> Document -> option (string * exn);
  replace_fault : FileSys -> Path -> Path -> option exn
}.

(** Computations that read and change a state and may raise. *)
Definition M (S A : Type) : Type := S -> result A * S.

#[global] Instance M_ret {S} : MRet (M S) := fun A a s => (Ok a, s).
#[global] Instance M_bind {S} : MBind (M S) := fun A B k m s =>
  match m s with
  | (Ok a, s') => k a s'
  | (Raise e, s') => (Raise e, s')
  end.

Definition raise {S A} (e : exn) : M S A := fun s => (Raise e, s).
Definition lift {S A} (r : result A) : M S A := fun s => (r, s).

(** [path.exists()]. *)
Definition exists_ (fs : FileSys) (p : Path) : bool :=
  match fs !! p with
  | Some _ => true
  | None => false
  end.

End Fs.
Export Fs.

Section Capabilities.

Variable os : OS.

(** [PdfReader(str(path))]. *)
Definition open_reader (p : Path) : M FileSys PdfReader := fun fs =>
  match fs !! p with
  | None =>
      (Raise (Exn FileNotFoundError
               ("[Errno 2] No such file or directory: '" +:+ path_str p +:+ "'")),
       fs)
  | Some Dir =>
      (Raise (Exn IsADirectoryError
               ("[Errno 21] Is a directory: '" +:+ path_str p +:+ "'")),
       fs)
  | Some (File (Junk _)) =>
      (Raise (Exn PdfReadError "EOF marker not found"), fs)
  | Some (File (Pdf d)) => (Ok (MkReader d), fs)
  end.

(** [path.open("wb")]: creates the file or truncates it to length zero.
    The handle is identified with the path it was opened on. *)
Definition open_wb (p : Path) : M FileSys Path := fun fs =>
  match fs !! p with
  | Some Dir =>
      (Raise (Exn IsADirectoryError
               ("[Errno 21] Is a directory: '" +:+ path_str p +:+ "'")),
       fs)
  | _ =>
      match open_fault os fs p with
      | Some e => (Raise e, fs)
      | None => (Ok p, <[p := File (Junk "")]> fs)
      end
  end.

(** [writer.write(f)], followed by the close that leaving the [with]
    block performs on either exit.  A write that fails leaves the bytes
    that had reached the file. *)
Definition write (w : PdfWriter) (f : Path) : M FileSys unit := fun fs =>
  match write_fault os fs f (written_document w) with
  | Some (bytes, e) => (Raise e, <[f := File (Junk bytes)]> fs)
  | None => (Ok tt, <[f := File (Pdf (written_document w))]> fs)
  end.

(** [src.replace(dst)], that is [os.replace]: an atomic rename that
    overwrites a file at [dst]. *)
Definition replace (src dst : Path) : M FileSys unit := fun fs =>
  match fs !! src with
  | None =>
      (Raise (Exn FileNotFoundError
               ("[Errno 2] No such file or directory: '" +:+ path_str src +:+ "'")),
       fs)
  | Some n =>
      match fs !! dst, n with
      | Some Dir, File _ =>
          (Raise (Exn IsADirectoryError
                   ("[Errno 21] Is a directory: '" +:+ path_str dst +:+ "'")),
           fs)
      | _, _ =>
          match replace_fault os fs src dst with
          | Some e => (Raise e, fs)
          | None => (Ok tt, <[dst := n]> (delete src fs))
          end
      end
  end.

End Capabilities.

(* ===================================================================== *)
(** ** The script                                                         *)
(* ===================================================================== *)

#[global] Instance result_ret : MRet result := fun A a => Ok a.
#[global] Instance result_bind : MBind result := fun A B k r =>
  match r with
  | Ok a => k a
  | Raise e => Raise e
  end.

(** The [argparse.Namespace] that [parse_args] returns.  [inputs] is
    declared with [nargs="+"], so the parser never returns an empty list. *)
Record Args := MkArgs {
  inputs : list string;
  output : option string;
  in_place : bool;
  password : option string;
  force : bool
}.

(** The observable state of a run: the files and the two streams, each
    stream as the list of lines that the script itself has printed so far.
    What a library may log on its own account is not modelled. *)
Record World := MkWorld {
  files : FileSys;
  stdout : list string;
  stderr : list string
}.

Definition with_files (fs : FileSys) (w : World) : World :=
  {| files := fs; stdout := stdout w; stderr := stderr w |}.

Definition with_stdout_line (line : string) (w : World) : World :=
  {| files := files w; stdout := stdout w ++ [line]; stderr := stderr w |}.

Definition with_stderr_line (line : string) (w : World) : World :=
  {| files := files w; stdout := stdout w; stderr := stderr w ++ [line] |}.

(** A computation on the files, run inside a computation on the world. *)
Definition on_files {A} (m : M FileSys A) : M World A := fun w =>
  let '(r, fs') := m (files w) in (r, with_files fs' w).

Definition read_files : M World FileSys := fun w => (Ok (files w), w).

(** [print(line)] and [print(line, file=sys.stderr)]. *)
Definition print_stdout (line : string) : M World unit := fun w =>
  (Ok tt, with_stdout_line line w).

Definition print_stderr (line : string) : M World unit := fun w =>
  (Ok tt, with_stderr_line line w).

(** [try: body except Exception as exc: handler(exc)]. *)
Definition try_except {S A} (body : M S A) (handler : exn -> M S A) : M S A :=
  fun s =>
    match body s with
    | (Ok a, s') => (Ok a, s')
    | (Raise exc, s') => handler exc s'
    end.

(** A list comprehension over a call that may raise. *)
Fixpoint comprehension {A B} (f : A -> result B) (l : list A) : result (list B) :=
  match l with
  | [] => Ok []
  | a :: l' => b ← f a; bs ← comprehension f l'; mret (b :: bs)
  end.

Definition msg_single_input : string :=
  "--output can be used only with a single input.".
Definition msg_either : string :=
  "Use either --output or --in-place, not both.".
Definition msg_exists (output_path : Path) : string :=
  "Output already exists: " +:+ path_str output_path
    +:+ " (use --force to overwrite).".
Definition msg_need_password (input_path : Path) : string :=
  "Encrypted PDF requires --password: " +:+ path_str input_path.
Definition msg_decrypt_failed (input_path : Path) : string :=
  "Failed to decrypt PDF with provided password: " +:+ path_str input_path.
Definition msg_not_found (path : Path) : string :=
  "ERROR: File not found: " +:+ path_str path.
Definition msg_not_pdf (path : Path) : string :=
  "ERROR: Not a PDF file: " +:+ path_str path.
Definition msg_processed (path out_path : Path) : string :=
  "Processed: " +:+ path_str path +:+ " -> " +:+ path_str out_path.
Definition msg_error (exc : exn) : string :=
  "ERROR: " +:+ exn_str exc.

Section Script.

Variable os : OS.

(** Lines 49-58 of [resolve_output_path]: the assignment of
    [output_path] by the [if]/[elif]/[else]. *)
Definition output_candidate (input_path : Path) (output_arg : option string)
    (in_place multiple_inputs : bool) : result Path :=
  if truthy output_arg then
    if multiple_inputs then Raise (Exn ValueError msg_single_input)
    else if in_place then Raise (Exn ValueError msg_either)
    else expand_resolve os (default "" output_arg)
  else if in_place then Ok input_path
  else with_name input_path (stem input_path +:+ "-stripped.pdf").

(** [resolve_output_path], lines 42-65.  Its only access to the file
    system is the existence test of line 60. *)
Definition resolve_output_path (fs : FileSys) (input_path : Path)
    (output_arg : option string) (in_place force multiple_inputs : bool)
    : result Path :=
  output_path ← output_candidate input_path output_arg in_place multiple_inputs;
  if exists_ fs output_path
     && bool_decide (output_path ≠ input_path)
     && negb force
  then Raise (Exn FileExistsError (msg_exists output_path))
  else Ok output_path.

(** [strip_metadata], lines 68-88. *)
Definition strip_metadata (input_path output_path : Path)
    (password : option string) : M FileSys unit :=
  reader ← open_reader input_path;
  (if is_encrypted reader then
     if negb (truthy password) then
       raise (Exn ValueError (msg_need_password input_path))
     else
       matched ← lift (decrypt reader (default "" password));
       if (matched =? 0)%Z then
         raise (Exn ValueError (msg_decrypt_failed input_path))
       else mret tt
   else mret tt);;
  let writer := new_writer in
  let writer := clone_document_from_reader writer reader in
  let writer := set_xmp_metadata writer None in
  let writer := set_info writer None in
  if bool_decide (output_path = input_path) then
    tmp_path ← lift (with_name input_path (stem input_path +:+ ".tmp.pdf"));
    (f ← open_wb os tmp_path; write os writer f);;
    replace os tmp_path input_path
  else
    f ← open_wb os output_path; write os writer f.

(** The first loop of [main], lines 95-101: [Some 1] is the early
    [return 1], [None] is the loop running to its end. *)
Fixpoint validate_loop (input_paths : list Path) : M World (option Z) :=
  match input_paths with
  | [] => mret None
  | path :: rest =>
      fs ← read_files;
      if negb (exists_ fs path) then
        print_stderr (msg_not_found path);; mret (Some 1%Z)
      else if negb (String.eqb (lower (suffix path)) ".pdf") then
        print_stderr (msg_not_pdf path);; mret (Some 1%Z)
      else validate_loop rest
  end.

(** The body of the second loop of [main], lines 105-113. *)
Definition process_one (args : Args) (multiple_inputs : bool) (path : Path)
    : M World unit :=
  fs ← read_files;
  out_path ← lift (resolve_output_path fs path (output args)
                     (in_place args) (force args) multiple_inputs);
  on_files (strip_metadata path out_path (password args));;
  print_stdout (msg_processed path out_path).

(** The second loop of [main], line 104. *)
Fixpoint process_loop (args : Args) (multiple_inputs : bool)
    (input_paths : list Path) : M World unit :=
  match input_paths with
  | [] => mret tt
  | path :: rest =>
      process_one args multiple_inputs path;;
      process_loop args multiple_inputs rest
  end.

(** [main], lines 91-118: the value is the exit code that
    [raise SystemExit(main())] hands to the interpreter; an exception of
    line 93 is outside the [try] and leaves [main] as it is. *)
Definition main (args : Args) : M World Z :=
  input_paths ← lift (comprehension (expand_resolve os) (inputs args));
  early ← validate_loop input_paths;
  match early with
  | Some code => mret code
  | None =>
      try_except
        (process_loop args (1 <? length input_paths)%nat input_paths;;
         mret 0%Z)
        (fun exc => print_stderr (msg_error exc);; mret 1%Z)
  end.

End Script.

(* ===================================================================== *)
(** ** Notions used in the statements                                     *)
(* ===================================================================== *)

(** The document without its two metadata fields (and without encryption,
    since the writer does not encrypt). *)
Definition stripped (d : Document) : Document :=
  {| xmp_metadata := None; info := None; body := body d; encryption := None |}.

(** [<dir>/<stem>.tmp.pdf] and [<dir>/<stem>-stripped.pdf] for an input. *)
Definition tmp_sibling (p : Path) : Path :=
  (parent p ++ [stem p +:+ ".tmp.pdf"])%list.

Definition stripped_sibling (p : Path) : Path :=
  (parent p ++ [stem p +:+ "-stripped.pdf"])%list.

(** The password lets the script past lines 70-74: the document is not
    encrypted, or the password is not empty and is one of the two that the
    document accepts. *)
Definition password_opens (d : Document) (password : option string) : bool :=
  match encryption d with
  | None => true
  | Some enc =>
      truthy password
      && (String.eqb (default "" password) (owner_password enc)
          || String.eqb (default "" password) (user_password enc))
  end.

(** What the first loop of [main] demands of an input. *)
Definition valid_input (fs : FileSys) (p : Path) : bool :=
  exists_ fs p && String.eqb (lower (suffix p)) ".pdf".

(** The line that the first loop prints for an input it rejects. *)
Definition validation_error (fs : FileSys) (p : Path) : string :=
  if exists_ fs p then msg_not_pdf p else msg_not_found p.

(** An operating system that refuses nothing on its own account. *)
Definition fault_free (os : OS) : Prop :=
  (forall fs p, open_fault os fs p = None)
  /\ (forall fs p d, write_fault os fs p d = None)
  /\ (forall fs src dst, replace_fault os fs src dst = None).


(** The inputs [paths] have been processed to the end, one after the
    other, from the world [w] to the world [w']: each one was resolved to
    its output path in the world its predecessor left, stripped into that
    path, and then reported by its one [Processed] line.  [outs] lists the
    output paths in order.  Nothing is said of stderr. *)
Inductive completed_steps (os : OS) (args : Args) (multiple_inputs : bool)
  : World -> list Path -> list Path -> World -> Prop :=
  | completed_none (w : World) :
      completed_steps os args multiple_inputs w [] [] w
  | completed_next (w w1 w' : World) (p out : Path) (rest outs : list Path) :
      resolve_output_path os (files w) p (output args) (in_place args)
        (force args) multiple_inputs = Ok out ->
      strip_metadata os p out (password args) (files w) = (Ok tt, files w1) ->
      stdout w1 = (stdout w ++ [msg_processed p out])%list ->
      completed_steps os args multiple_inputs w1 rest outs w' ->
      completed_steps os args multiple_inputs w (p :: rest) (out :: outs) w'.

(* ===================================================================== *)
(** ** Concrete runs                                                      *)
(* ===================================================================== *)

Module Scenario.

(** Every argument names a file of the working directory [/home/u]. *)
Definition os_ok : OS :=
  {| expand_resolve := fun s => Ok ["home"; "u"; s];
     open_fault := fun _ _ => None;
     write_fault := fun _ _ _ => None;
     replace_fault := fun _ _ _ => None |}.



Definition doc_a : Document :=
  {| xmp_metadata := Some "<x:xmpmeta/>";
     info := Some [("Author", "A. Writer")];
     body := {| pages := ["page 1"; "page 2"];
                structure := ["outline"];
                attachments := [("note.txt", "hi")] |};
     encryption := None |}.

Definition doc_b : Document :=
  {| xmp_metadata := None;
     info := Some [("Title", "B")];
     body := {| pages := ["only page"]; structure := []; attachments := [] |};
     encryption := None |}.

Definition doc_secret : Document :=
  {| xmp_metadata := Some "<x:xmpmeta/>";
     info := Some [("Author", "S")];
     body := {| pages := ["classified"]; structure := []; attachments := [] |};
     encryption := Some {| user_password := "open"; owner_password := "own" |} |}.

Definition home_u : Path := ["home"; "u"].
Definition a_pdf : Path := ["home"; "u"; "a.pdf"].
Definition b_pdf : Path := ["home"; "u"; "b.pdf"].
Definition secret_pdf : Path := ["home"; "u"; "secret.pdf"].
Definition notes_txt : Path := ["home"; "u"; "notes.txt"].
Definition a_stripped : Path := ["home"; "u"; "a-stripped.pdf"].
Definition b_stripped : Path := ["home"; "u"; "b-stripped.pdf"].
Definition a_tmp : Path := ["home"; "u"; "a.tmp.pdf"].
Definition out_pdf : Path := ["home"; "u"; "out.pdf"].

Definition fs0 : FileSys :=
  <[ notes_txt := File (Junk "remember the milk") ]>
  (<[ secret_pdf := File (Pdf doc_secret) ]>
  (<[ b_pdf := File (Pdf doc_b) ]>
  (<[ a_pdf := File (Pdf doc_a) ]>
  (<[ home_u := Dir ]>
  (<[ ["home"] := Dir ]>
  (<[ [] := Dir ]> ∅)))))).

(** [fs0] with something already at the derived output of [b.pdf]. *)
Definition fs_taken : FileSys :=
  <[ b_stripped := File (Pdf doc_a) ]> fs0.


Definition world (fs : FileSys) : World :=
  {| files := fs; stdout := []; stderr := [] |}.

End Scenario.

(* ===================================================================== *)
(** ** Facts about the path operations                                    *)
(* ===================================================================== *)

Lemma append_cons (a : ascii) (s t : string) :
  String a s +:+ t = String a (s +:+ t).
Proof. reflexivity. Qed.

Lemma append_nil (t : string) : "" +:+ t = t.
Proof. reflexivity. Qed.

Lemma length_append (s t : string) :
  String.length (s +:+ t) = (String.length s + String.length t)%nat.
Proof.
  induction s as [|a s IH]; [reflexivity|].
  rewrite append_cons. simpl. by rewrite IH.
Qed.

Lemma append_assoc (s t u : string) : s +:+ (t +:+ u) = (s +:+ t) +:+ u.
Proof.
  induction s as [|a s IH]; [reflexivity|].
  rewrite !append_cons. by rewrite IH.
Qed.

Lemma rfind_lower_bound (c : ascii) (s : string) : (-1 <= rfind c s)%Z.
Proof.
  induction s as [|a s IH]; simpl; [lia|].
  destruct (0 <=? rfind c s)%Z eqn:E; [lia|].
  destruct (Ascii.eqb a c); lia.
Qed.

Lemma rfind_upper_bound (c : ascii) (s : string) :
  (rfind c s < Z.of_nat (String.length s))%Z.
Proof.
  induction s as [|a s IH]; simpl String.length; simpl rfind; [lia|].
  destruct (0 <=? rfind c s)%Z eqn:E; [lia|].
  destruct (Ascii.eqb a c); lia.
Qed.

(** The last occurrence in [s ++ t] is the last occurrence in [t], when
    there is one. *)
Lemma rfind_append (c : ascii) (s t : string) :
  (0 <= rfind c t)%Z ->
  rfind c (s +:+ t) = (Z.of_nat (String.length s) + rfind c t)%Z.
Proof.
  intros Ht. induction s as [|a s IH].
  - rewrite append_nil. simpl. lia.
  - rewrite append_cons. simpl rfind. rewrite IH.
    destruct (0 <=? _)%Z eqn:E.
    + simpl String.length. lia.
    + apply Z.leb_gt in E. lia.
Qed.

Lemma str_take_append (s t : string) : str_take (String.length s) (s +:+ t) = s.
Proof.
  induction s as [|a s IH].
  - reflexivity.
  - rewrite append_cons. simpl. by rewrite IH.
Qed.

Lemma str_drop_append (s t : string) : str_drop (String.length s) (s +:+ t) = t.
Proof.
  induction s as [|a s IH]; [reflexivity|].
  rewrite append_cons. simpl. exact IH.
Qed.

Lemma str_take_length (n : nat) (s : string) :
  (n <= String.length s)%nat -> String.length (str_take n s) = n.
Proof.
  revert s. induction n as [|n IH]; intros [|a s] Hn; simpl in *;
    try reflexivity; try lia.
  rewrite IH; lia.
Qed.

Lemma str_take_drop (n : nat) (s : string) : str_take n s +:+ str_drop n s = s.
Proof.
  revert s. induction n as [|n IH]; intros [|a s]; try reflexivity.
  simpl. rewrite append_cons. by rewrite IH.
Qed.

Lemma suffix_index_bound (nm : string) (i : nat) :
  suffix_index nm = Some i -> (0 < i /\ i + 1 < String.length nm)%nat.
Proof.
  unfold suffix_index. case_match eqn:E; [|done].
  intros [= <-]. apply andb_prop in E as [E1 E2].
  apply Z.ltb_lt in E1, E2. lia.
Qed.

(** [name == stem + suffix], as pathlib documents. *)
Lemma stem_suffix (p : Path) : stem p +:+ suffix p = name p.
Proof.
  unfold stem, suffix. destruct (suffix_index (name p)) as [i|].
  - apply str_take_drop.
  - by destruct (name p) as [|a s]; [|rewrite append_cons; f_equal;
      induction s as [|b s IH]; [|rewrite append_cons, IH]].
Qed.

(** A name [s + ext], where [ext] is a dot followed by at least one
    character other than a dot, splits at that dot when [s] is not empty. *)
Lemma suffix_index_append (s ext : string) :
  s <> "" -> rfind "." ext = 0%Z -> (2 <= String.length ext)%nat ->
  suffix_index (s +:+ ext) = Some (String.length s).
Proof.
  intros Hs Hext Hlen. unfold suffix_index.
  rewrite rfind_append, Hext by lia. rewrite length_append.
  destruct s as [|a s]; [done|]. simpl String.length.
  case_match eqn:E.
  - f_equal. lia.
  - apply andb_false_iff in E as [E|E]; apply Z.ltb_ge in E; lia.
Qed.

Lemma stem_of_pdf_name (p : Path) (s : string) :
  s <> "" -> name p = s +:+ ".pdf" -> stem p = s /\ suffix p = ".pdf".
Proof.
  intros Hs Hn. unfold stem, suffix. rewrite Hn.
  rewrite (suffix_index_append s ".pdf") by (done || (simpl; lia)).
  split; [apply str_take_append | apply str_drop_append].
Qed.

(** The stem is a proper prefix of [stem + ext2] for any [ext2] with two
    dots: such a name can never be the name the stem was taken from. *)
Lemma stem_tmp_name_fresh (p : Path) : stem p +:+ ".tmp.pdf" <> name p.
Proof.
  intros Heq.
  assert (Hr : rfind "." (name p)
               = (Z.of_nat (String.length (stem p)) + 4)%Z).
  { rewrite <- Heq. by rewrite rfind_append. }
  assert (Hl : String.length (name p) = (String.length (stem p) + 8)%nat).
  { rewrite <- Heq. by rewrite length_append. }
  unfold stem in Hr, Hl. unfold suffix_index in *.
  destruct ((0 <? rfind "." (name p))%Z
            && (rfind "." (name p) <? Z.of_nat (String.length (name p)) - 1)%Z)
    eqn:E.
  - rewrite str_take_length in Hr, Hl.
    + lia.
    + pose proof (rfind_upper_bound "." (name p)). lia.
    + pose proof (rfind_upper_bound "." (name p)). lia.
  - lia.
Qed.

Lemma stem_stripped_name_fresh (p : Path) : stem p +:+ "-stripped.pdf" <> name p.
Proof.
  intros Heq.
  assert (Hr : rfind "." (name p)
               = (Z.of_nat (String.length (stem p)) + 9)%Z).
  { rewrite <- Heq. by rewrite rfind_append. }
  assert (Hl : String.length (name p) = (String.length (stem p) + 13)%nat).
  { rewrite <- Heq. by rewrite length_append. }
  unfold stem in Hr, Hl. unfold suffix_index in *.
  destruct ((0 <? rfind "." (name p))%Z
            && (rfind "." (name p) <? Z.of_nat (String.length (name p)) - 1)%Z)
    eqn:E.
  - rewrite str_take_length in Hr, Hl.
    + lia.
    + pose proof (rfind_upper_bound "." (name p)). lia.
    + pose proof (rfind_upper_bound "." (name p)). lia.
  - lia.
Qed.

Lemma with_name_ok (p q : Path) (n : string) :
  with_name p n = Ok q -> name q = n /\ parent q = parent p /\ name p <> "".
Proof.
  unfold with_name. destruct (String.eqb_spec (name p) ""); [done|].
  intros [= <-]. unfold name, parent.
  by rewrite last_last, removelast_last.
Qed.

Lemma with_name_fresh (p q : Path) (n : string) :
  with_name p n = Ok q -> n <> name p -> q <> p.
Proof.
  intros H Hn ->. apply with_name_ok in H as (H & _). congruence.
Qed.

Example stem_of_double_suffix : stem ["home"; "u"; "a.tar.pdf"] = "a.tar".
Proof. reflexivity. Qed.

Example suffix_is_case_blind :
  lower (suffix ["home"; "u"; "A.PDF"]) = ".pdf".
Proof. reflexivity. Qed.

Example hidden_file_has_no_suffix :
  suffix ["home"; ".pdf"] = "" /\ stem ["home"; ".pdf"] = ".pdf".
Proof. by split. Qed.

Example trailing_dot_has_no_suffix : suffix ["home"; "a.pdf."] = "".
Proof. reflexivity. Qed.

Example path_str_joins : path_str ["home"; "u"; "a.pdf"] = "/home/u/a.pdf".
Proof. reflexivity. Qed.

Lemma with_name_total (p : Path) (n : string) :
  name p <> "" -> with_name p n = Ok (parent p ++ [n])%list.
Proof.
  intros H. unfold with_name. by destruct (String.eqb_spec (name p) "").
Qed.

(* ===================================================================== *)
(** ** Facts about [strip_metadata]                                       *)
(* ===================================================================== *)

(** The document that the script serialises for an input document [d]. *)
Lemma written_document_stripped (d : Document) :
  written_document
    (set_info (set_xmp_metadata
       (clone_document_from_reader new_writer (MkReader d)) None) None)
  = {| xmp_metadata := None; info := None; body := body d; encryption := None |}.
Proof. reflexivity. Qed.

Section Steps.

Context {S A B : Type}.

Lemma bind_ok_inv (m : M S A) (k : A -> M S B) (s s' : S) (b : B) :
  (m ≫= k) s = (Ok b, s') ->
  exists a s1, m s = (Ok a, s1) /\ k a s1 = (Ok b, s').
Proof.
  unfold mbind, M_bind. destruct (m s) as [[a|e] s1]; [eauto|done].
Qed.


Lemma bind_ok_step (m : M S A) (k : A -> M S B) (s s1 : S) (a : A) :
  m s = (Ok a, s1) -> (m ≫= k) s = k a s1.
Proof. unfold mbind, M_bind. by intros ->. Qed.

Lemma bind_raise_step (m : M S A) (k : A -> M S B) (s s1 : S) (e : exn) :
  m s = (Raise e, s1) -> (m ≫= k) s = (Raise e, s1).
Proof. unfold mbind, M_bind. by intros ->. Qed.

End Steps.

Section Primitives.

Variable os : OS.

Lemma open_reader_inv (p : Path) (fs fs' : FileSys) (r : result PdfReader) :
  open_reader p fs = (r, fs') ->
  fs' = fs
  /\ forall rd, r = Ok rd -> fs !! p = Some (File (Pdf (r_doc rd))).
Proof.
  unfold open_reader. intros H.
  destruct (fs !! p) as [[|[d|bs]]|]; simplify_eq; split; try done.
  by intros rd [= <-].
Qed.

Lemma open_reader_pdf (p : Path) (fs : FileSys) (d : Document) :
  fs !! p = Some (File (Pdf d)) -> open_reader p fs = (Ok (MkReader d), fs).
Proof. unfold open_reader. by intros ->. Qed.

Lemma open_wb_inv (p : Path) (fs fs' : FileSys) (r : result Path) :
  open_wb os p fs = (r, fs') ->
  (r = Ok p /\ fs' = <[p := File (Junk "")]> fs /\ fs !! p <> Some Dir
   /\ open_fault os fs p = None)
  \/ (exists e, r = Raise e /\ fs' = fs).
Proof.
  unfold open_wb. intros H.
  destruct (fs !! p) as [[|c]|] eqn:E; simplify_eq; eauto;
    destruct (open_fault os fs p); simplify_eq; eauto 10.
Qed.

Lemma open_wb_ok (p : Path) (fs : FileSys) :
  fs !! p <> Some Dir -> open_fault os fs p = None ->
  open_wb os p fs = (Ok p, <[p := File (Junk "")]> fs).
Proof.
  unfold open_wb. intros Hd ->. by destruct (fs !! p) as [[|c]|].
Qed.

Lemma write_inv (w : PdfWriter) (f : Path) (fs fs' : FileSys)
    (r : result unit) :
  write os w f fs = (r, fs') ->
  (r = Ok tt /\ fs' = <[f := File (Pdf (written_document w))]> fs
   /\ write_fault os fs f (written_document w) = None)
  \/ (exists e bytes, r = Raise e /\ fs' = <[f := File (Junk bytes)]> fs
      /\ write_fault os fs f (written_document w) = Some (bytes, e)).
Proof.
  unfold write. intros H.
  destruct (write_fault os fs f _) as [[bytes e]|]; simplify_eq; eauto 10.
Qed.

Lemma replace_inv (src dst : Path) (fs fs' : FileSys) (r : result unit) :
  replace os src dst fs = (r, fs') ->
  (r = Ok tt /\ exists n, fs !! src = Some n
                   /\ fs' = <[dst := n]> (delete src fs))
  \/ (exists e, r = Raise e /\ fs' = fs).
Proof.
  unfold replace. intros H.
  destruct (fs !! src) as [n|]; [|simplify_eq; eauto].
  destruct (fs !! dst) as [[|c]|], n; simplify_eq; eauto;
    destruct (replace_fault os fs src dst); simplify_eq; eauto 10.
Qed.

End Primitives.

(** The four outcomes of opening and writing, as they occur in the
    hypotheses of the inversion lemmas below. *)
Ltac opened_ok H :=
  let Hf := fresh in
  apply open_wb_inv in H as [(Hf & -> & _)|(? & ? & _)];
  [injection Hf as -> | done].


Ltac written_ok H :=
  apply write_inv in H as [(_ & -> & _)|(? & ? & ? & _)]; [|done].


Section StripMetadata.

Variable os : OS.

(** The password gate of lines 70-74 never changes the file system. *)
Lemma password_gate_frame (reader : PdfReader) (password : option string)
    (input_path : Path) (fs fs' : FileSys) (r : result unit) :
  (if is_encrypted reader then
     if negb (truthy password) then
       raise (Exn ValueError (msg_need_password input_path))
     else
       matched ← lift (decrypt reader (default "" password));
       if (matched =? 0)%Z then
         raise (Exn ValueError (msg_decrypt_failed input_path))
       else mret tt
   else mret tt) fs = (r, fs') ->
  fs' = fs.
Proof.
  unfold mbind, M_bind, mret, M_ret, raise, lift.
  destruct (is_encrypted reader); [|by intros [= _ <-]].
  destruct (negb (truthy password)); [by intros [= _ <-]|].
  destruct (decrypt reader _) as [n|e]; [|by intros [= _ <-]].
  destruct (n =? 0)%Z; by intros [= _ <-].
Qed.

(** What a normal return of [strip_metadata] has done to the files. *)
Lemma strip_metadata_ok_inv (fs fs' : FileSys) (input_path output_path : Path)
    (password : option string) :
  strip_metadata os input_path output_path password fs = (Ok tt, fs') ->
  exists d,
    fs !! input_path = Some (File (Pdf d))
    /\ ((output_path = input_path
         /\ exists tmp_path,
             with_name input_path (stem input_path +:+ ".tmp.pdf") = Ok tmp_path
             /\ fs' = <[input_path := File (Pdf (stripped d))]>
                        (delete tmp_path fs))
        \/ (output_path <> input_path
            /\ fs' = <[output_path := File (Pdf (stripped d))]> fs)).
Proof.
  unfold strip_metadata. intros H.
  apply bind_ok_inv in H as (reader & fs1 & Hrd & H).
  apply open_reader_inv in Hrd as [-> Hrd].
  specialize (Hrd _ eq_refl). destruct reader as [d]. simpl in Hrd.
  exists d. split; [done|].
  apply bind_ok_inv in H as ([] & fs2 & Hgate & H).
  apply password_gate_frame in Hgate as ->.
  case_bool_decide as Hio.
  - left. split; [done|].
    apply bind_ok_inv in H as (tmp_path & fs3 & Htmp & H).
    unfold lift in Htmp. injection Htmp as Htmp <-.
    exists tmp_path. split; [done|].
    apply bind_ok_inv in H as ([] & fs4 & Hw & H).
    apply bind_ok_inv in Hw as (f & fs5 & Hop & Hw).
    opened_ok Hop. written_ok Hw.
    apply replace_inv in H as [(_ & n & Hn & ->)|(e & ? & _)]; [|done].
    rewrite lookup_insert_eq in Hn. injection Hn as <-.
    by rewrite insert_insert_eq, delete_insert_eq.
  - right. split; [done|].
    apply bind_ok_inv in H as (f & fs5 & Hop & Hw).
    opened_ok Hop. written_ok Hw.
    by rewrite insert_insert_eq.
Qed.


End StripMetadata.

Lemma with_name_tmp (p q : Path) :
  with_name p (stem p +:+ ".tmp.pdf") = Ok q -> q = tmp_sibling p /\ q <> p.
Proof.
  intros H. split.
  - unfold with_name in H. by case_match; simplify_eq.
  - eapply with_name_fresh; [done|]. apply stem_tmp_name_fresh.
Qed.

Lemma tmp_sibling_fresh (p : Path) : name p <> "" -> tmp_sibling p <> p.
Proof.
  intros Hn. pose proof (with_name_total p (stem p +:+ ".tmp.pdf") Hn) as H.
  by apply with_name_tmp in H as [_ H].
Qed.

Section StripMetadataForward.

Variable os : OS.

(** Past the reader and the password gate, [strip_metadata] is its
    serialisation part, lines 76-88. *)
Lemma strip_metadata_past_gate (fs : FileSys) (input_path output_path : Path)
    (password : option string) (d : Document) :
  fs !! input_path = Some (File (Pdf d)) ->
  password_opens d password = true ->
  strip_metadata os input_path output_path password fs
  = (let writer :=
       set_info (set_xmp_metadata
         (clone_document_from_reader new_writer (MkReader d)) None) None in
     if bool_decide (output_path = input_path) then
       tmp_path ← lift (with_name input_path (stem input_path +:+ ".tmp.pdf"));
       (f ← open_wb os tmp_path; write os writer f);;
       replace os tmp_path input_path
     else
       f ← open_wb os output_path; write os writer f) fs.
Proof.
  intros Hin Hpw. unfold strip_metadata.
  rewrite (bind_ok_step _ _ _ _ _ (open_reader_pdf _ _ _ Hin)).
  unfold password_opens in Hpw. unfold is_encrypted, decrypt. simpl.
  destruct (encryption d) as [enc|]; [|reflexivity].
  apply andb_prop in Hpw as [Ht Hm]. rewrite Ht. simpl.
  unfold mbind at 1 2. unfold M_bind, lift.
  destruct (String.eqb _ (owner_password enc)); [reflexivity|].
  simpl in Hm. by rewrite Hm.
Qed.

Lemma strip_metadata_direct_ok (fs : FileSys) (input_path output_path : Path)
    (password : option string) (d : Document) :
  fs !! input_path = Some (File (Pdf d)) ->
  password_opens d password = true ->
  output_path <> input_path ->
  fs !! output_path <> Some Dir ->
  open_fault os fs output_path = None ->
  write_fault os (<[output_path := File (Junk "")]> fs) output_path
    (stripped d) = None ->
  strip_metadata os input_path output_path password fs
  = (Ok tt, <[output_path := File (Pdf (stripped d))]> fs).
Proof.
  intros Hin Hpw Hne Hdir Hop Hwr.
  rewrite (strip_metadata_past_gate _ _ _ _ d) by done. simpl.
  rewrite bool_decide_false by done.
  rewrite (bind_ok_step _ _ _ _ _ (open_wb_ok os _ _ Hdir Hop)).
  unfold write. rewrite written_document_stripped.
  fold (stripped d). rewrite Hwr. by rewrite insert_insert_eq.
Qed.

Lemma strip_metadata_in_place_ok (fs : FileSys) (input_path : Path)
    (password : option string) (d : Document) :
  fs !! input_path = Some (File (Pdf d)) ->
  password_opens d password = true ->
  name input_path <> "" ->
  fs !! tmp_sibling input_path <> Some Dir ->
  fault_free os ->
  strip_metadata os input_path input_path password fs
  = (Ok tt, <[input_path := File (Pdf (stripped d))]>
              (delete (tmp_sibling input_path) fs)).
Proof.
  intros Hin Hpw Hn Hdir (Hop & Hwr & Hre).
  rewrite (strip_metadata_past_gate _ _ _ _ d) by done. simpl.
  rewrite bool_decide_true by done.
  rewrite (bind_ok_step _ _ fs fs (tmp_sibling input_path))
    by (unfold lift; by rewrite with_name_total).
  pose proof (tmp_sibling_fresh _ Hn) as Hfresh.
  set (tmp := tmp_sibling input_path) in *.
  erewrite bind_ok_step; last first.
  { rewrite (bind_ok_step _ _ _ _ _ (open_wb_ok os _ _ Hdir (Hop _ _))).
    unfold write. by rewrite Hwr. }
  unfold replace. rewrite lookup_insert_eq.
  rewrite lookup_insert_ne, lookup_insert_ne, Hin, Hre by done.
  by rewrite delete_insert_eq, delete_insert_eq.
Qed.

End StripMetadataForward.

Section StripMetadataOutcome.

Variable os : OS.


Lemma resolve_output_path_in_place (fs : FileSys) (p : Path)
    (output_arg : option string) (force multiple_inputs : bool) :
  truthy output_arg = false ->
  resolve_output_path os fs p output_arg true force multiple_inputs = Ok p.
Proof.
  intros Ht. unfold resolve_output_path, output_candidate. rewrite Ht.
  simpl. rewrite bool_decide_false by (by intros []).
  by rewrite andb_false_r.
Qed.

End StripMetadataOutcome.

(* ===================================================================== *)
(** ** The concrete runs, evaluated                                       *)
(* ===================================================================== *)

Module ScenarioFacts.
Import Scenario.

Lemma os_ok_fault_free : fault_free os_ok.
Proof. by repeat split. Qed.

Lemma fs0_a_pdf : fs0 !! a_pdf = Some (File (Pdf doc_a)).
Proof. by vm_compute. Qed.

Lemma fs0_b_pdf : fs0 !! b_pdf = Some (File (Pdf doc_b)).
Proof. by vm_compute. Qed.

Lemma fs0_secret_pdf : fs0 !! secret_pdf = Some (File (Pdf doc_secret)).
Proof. by vm_compute. Qed.

Lemma fs0_a_stripped : fs0 !! a_stripped = None.
Proof. by vm_compute. Qed.

Lemma fs0_a_tmp : fs0 !! a_tmp = None.
Proof. by vm_compute. Qed.

(** [tool --in-place a.pdf]. *)
Lemma in_place_a :
  strip_metadata os_ok a_pdf a_pdf None fs0
  = (Ok tt, <[a_pdf := File (Pdf (stripped doc_a))]> (delete a_tmp fs0)).
Proof.
  apply (strip_metadata_in_place_ok os_ok fs0 a_pdf None doc_a).
  - exact fs0_a_pdf.
  - reflexivity.
  - by vm_compute.
  - change (tmp_sibling a_pdf) with a_tmp. by rewrite fs0_a_tmp.
  - exact os_ok_fault_free.
Qed.



End ScenarioFacts.

(* ===================================================================== *)
(** ** The stripper: what is written, and what a failure leaves behind    *)
(* ===================================================================== *)

(** C1. Whenever [strip_metadata] returns normally, the input held a
    complete PDF document [d], and the file at the output path is a
    complete PDF [d'] whose XMP metadata and document-information
    dictionary are both absent and whose pages, structure and attachments
    are those of [d]. *)
Theorem strip_metadata_clears_both_and_keeps_rest
    (os : OS) (fs fs' : FileSys) (input_path output_path : Path)
    (password : option string) :
  strip_metadata os input_path output_path password fs = (Ok tt, fs') ->
  exists d d',
    fs !! input_path = Some (File (Pdf d))
    /\ fs' !! output_path = Some (File (Pdf d'))
    /\ xmp_metadata d' = None
    /\ info d' = None
    /\ pages (body d') = pages (body d)
    /\ structure (body d') = structure (body d)
    /\ attachments (body d') = attachments (body d).
Proof.
  intros H. apply strip_metadata_ok_inv in H as (d & Hin & H).
  exists d, (stripped d). split; [done|].
  split; [|done].
  destruct H as [(-> & tmp & _ & ->)|(_ & ->)]; apply lookup_insert_eq.
Qed.

Lemma strip_metadata_clears_both_and_keeps_rest_witness :
  exists d d',
    Scenario.fs0 !! Scenario.a_pdf = Some (File (Pdf d))
    /\ <[Scenario.a_pdf := File (Pdf (stripped Scenario.doc_a))]>
         (delete Scenario.a_tmp Scenario.fs0) !! Scenario.a_pdf
       = Some (File (Pdf d'))
    /\ xmp_metadata d' = None
    /\ info d' = None
    /\ pages (body d') = pages (body d)
    /\ structure (body d') = structure (body d)
    /\ attachments (body d') = attachments (body d).
Proof.
  apply (strip_metadata_clears_both_and_keeps_rest
           Scenario.os_ok Scenario.fs0 _ Scenario.a_pdf Scenario.a_pdf None).
  exact ScenarioFacts.in_place_a.
Defined.




(** C6. For an input that holds an encrypted document: with no password or
    an empty one [strip_metadata] raises the password-required error; with
    a password for which [decrypt] reports 0 it raises the decryption
    error; in both cases the file system is exactly as before.  With a
    password for which [decrypt] reports a match, on an operating system
    that refuses nothing, it returns normally and the target holds the
    stripped document. *)
Theorem encrypted_input_needs_matching_password
    (os : OS) (fs : FileSys) (input_path output_path : Path)
    (password : option string) (d : Document) (enc : Encryption) :
  fs !! input_path = Some (File (Pdf d)) ->
  encryption d = Some enc ->
  (truthy password = false ->
     strip_metadata os input_path output_path password fs
     = (Raise (Exn ValueError (msg_need_password input_path)), fs))
  /\ (truthy password = true ->
      decrypt (MkReader d) (default "" password) = Ok 0%Z ->
      strip_metadata os input_path output_path password fs
      = (Raise (Exn ValueError (msg_decrypt_failed input_path)), fs))
  /\ (truthy password = true ->
      (exists n, decrypt (MkReader d) (default "" password) = Ok n
                 /\ n <> 0%Z) ->
      fault_free os ->
      (output_path <> input_path ->
         fs !! output_path <> Some Dir ->
         strip_metadata os input_path output_path password fs
         = (Ok tt, <[output_path := File (Pdf (stripped d))]> fs))
      /\ (output_path = input_path ->
          name input_path <> "" ->
          fs !! tmp_sibling input_path <> Some Dir ->
          strip_metadata os input_path output_path password fs
          = (Ok tt, <[input_path := File (Pdf (stripped d))]>
                      (delete (tmp_sibling input_path) fs)))).
Proof.
  intros Hin Henc.
  assert (Hgate : forall k,
    strip_metadata os input_path output_path password fs
    = (if negb (truthy password) then
         (Raise (Exn ValueError (msg_need_password input_path)), fs)
       else match decrypt (MkReader d) (default "" password) with
            | Ok n =>
                if (n =? 0)%Z then
                  (Raise (Exn ValueError (msg_decrypt_failed input_path)), fs)
                else k
            | Raise e => (Raise e, fs)
            end)
    \/ (truthy password = true
        /\ exists n, decrypt (MkReader d) (default "" password) = Ok n
                     /\ n <> 0%Z)).
  { intros k. destruct (truthy password) eqn:Ht.
    - destruct (decrypt (MkReader d) (default "" password)) as [n|e] eqn:Hd.
      + destruct (Z.eqb_spec n 0) as [->|Hn]; [|right; eauto].
        left. unfold strip_metadata.
        rewrite (bind_ok_step _ _ _ _ _ (open_reader_pdf _ _ _ Hin)).
        unfold is_encrypted. simpl. rewrite Henc, Ht. simpl.
        unfold mbind at 1 2. unfold M_bind, lift. by rewrite Hd.
      + unfold decrypt in Hd. simpl in Hd. rewrite Henc in Hd.
        by repeat case_match.
    - left. unfold strip_metadata.
      rewrite (bind_ok_step _ _ _ _ _ (open_reader_pdf _ _ _ Hin)).
      unfold is_encrypted. simpl. rewrite Henc, Ht. reflexivity. }
  split; [|split].
  - intros Ht. destruct (Hgate (Ok tt, fs)) as [->|(Ht' & _)]; [|congruence].
    by rewrite Ht.
  - intros Ht Hd.
    destruct (Hgate (Ok tt, fs)) as [->|(_ & n & Hd' & Hn)]; [|congruence].
    by rewrite Ht, Hd.
  - intros Ht (n & Hd & Hn) Hff.
    assert (Hpw : password_opens d password = true).
    { unfold password_opens. rewrite Henc, Ht. simpl.
      unfold decrypt in Hd. simpl in Hd. rewrite Henc in Hd.
      destruct (String.eqb _ (owner_password enc)); [done|].
      destruct (String.eqb _ (user_password enc)); [done|].
      by injection Hd as <-. }
    split.
    + intros Hne Hdir. destruct Hff as (Hop & Hwr & _).
      by apply strip_metadata_direct_ok.
    + intros -> Hname Hdir. by apply strip_metadata_in_place_ok.
Qed.

Lemma encrypted_input_needs_matching_password_witness :
  strip_metadata Scenario.os_ok Scenario.secret_pdf Scenario.out_pdf None
    Scenario.fs0
  = (Raise (Exn ValueError
       "Encrypted PDF requires --password: /home/u/secret.pdf"), Scenario.fs0)
  /\ strip_metadata Scenario.os_ok Scenario.secret_pdf Scenario.out_pdf
       (Some "wrong") Scenario.fs0
     = (Raise (Exn ValueError
          "Failed to decrypt PDF with provided password: /home/u/secret.pdf"),
        Scenario.fs0)
  /\ strip_metadata Scenario.os_ok Scenario.secret_pdf Scenario.out_pdf
       (Some "open") Scenario.fs0
     = (Ok tt, <[Scenario.out_pdf := File (Pdf (stripped Scenario.doc_secret))]>
                 Scenario.fs0).
Proof.
  pose proof (fun pw => encrypted_input_needs_matching_password
                Scenario.os_ok Scenario.fs0 Scenario.secret_pdf
                Scenario.out_pdf pw Scenario.doc_secret _
                ScenarioFacts.fs0_secret_pdf eq_refl) as H.
  split; [|split].
  - destruct (H None) as (H1 & _). exact (H1 eq_refl).
  - destruct (H (Some "wrong")) as (_ & H2 & _). exact (H2 eq_refl eq_refl).
  - destruct (H (Some "open")) as (_ & _ & H3).
    assert (Hm : exists n, decrypt (MkReader Scenario.doc_secret) "open" = Ok n
                           /\ n <> 0%Z) by (by exists 1%Z).
    destruct (H3 eq_refl Hm ScenarioFacts.os_ok_fault_free) as [H4 _].
    apply H4; by vm_compute.
Defined.



(* ===================================================================== *)
(** ** The resolver                                                       *)
(* ===================================================================== *)

Lemma stripped_sibling_fresh (p : Path) : stripped_sibling p <> p.
Proof.
  intros H. apply (stem_stripped_name_fresh p).
  pose proof (last_last (parent p) (stem p +:+ "-stripped.pdf") "") as L.
  change (parent p ++ [_])%list with (stripped_sibling p) in L.
  rewrite H in L. by symmetry.
Qed.

Section Resolver.

Variable os : OS.

(** The default branch of the resolver, for an input with a name. *)
Lemma resolve_output_path_default (fs : FileSys) (p : Path)
    (output_arg : option string) (force multiple_inputs : bool) :
  truthy output_arg = false ->
  name p <> "" ->
  resolve_output_path os fs p output_arg false force multiple_inputs
  = if exists_ fs (stripped_sibling p) && negb force
    then Raise (Exn FileExistsError (msg_exists (stripped_sibling p)))
    else Ok (stripped_sibling p).
Proof.
  intros Ht Hn. unfold resolve_output_path, output_candidate. rewrite Ht.
  rewrite with_name_total by done. fold (stripped_sibling p). simpl.
  rewrite bool_decide_true by apply stripped_sibling_fresh.
  by rewrite andb_true_r.
Qed.

Lemma resolve_output_path_check (fs : FileSys) (p out : Path)
    (output_arg : option string) (in_place force multiple_inputs : bool) :
  output_candidate os p output_arg in_place multiple_inputs = Ok out ->
  resolve_output_path os fs p output_arg in_place force multiple_inputs
  = if exists_ fs out && bool_decide (out <> p) && negb force
    then Raise (Exn FileExistsError (msg_exists out))
    else Ok out.
Proof. unfold resolve_output_path. by intros ->. Qed.

Lemma resolve_output_path_raise (fs : FileSys) (p : Path) (e : exn)
    (output_arg : option string) (in_place force multiple_inputs : bool) :
  output_candidate os p output_arg in_place multiple_inputs = Raise e ->
  resolve_output_path os fs p output_arg in_place force multiple_inputs
  = Raise e.
Proof. unfold resolve_output_path. by intros ->. Qed.

End Resolver.

(** C7. With no output argument and no in-place flag, the resolved output
    path of an input [<dir>/<stem>.pdf] is [<dir>/<stem>-stripped.pdf]:
    that path is what [resolve_output_path] returns, and the only other
    outcome is the file-exists error for that very path.  For any input,
    a returned path has the input's directory, the input's pathlib stem
    followed by [-stripped], and the extension [.pdf]; and for any input
    with a name a path is returned unless it exists and the force flag is
    off. *)
Theorem default_output_is_stripped_sibling
    (os : OS) (fs : FileSys) (force multiple_inputs : bool) :
  (forall (dir : Path) (s : string),
     s <> "" ->
     resolve_output_path os fs (dir ++ [s +:+ ".pdf"])%list None false force
       multiple_inputs
     = if exists_ fs (dir ++ [s +:+ "-stripped.pdf"])%list && negb force
       then Raise (Exn FileExistsError
                     (msg_exists (dir ++ [s +:+ "-stripped.pdf"])%list))
       else Ok (dir ++ [s +:+ "-stripped.pdf"])%list)
  /\ (forall (p out : Path),
        resolve_output_path os fs p None false force multiple_inputs = Ok out ->
        parent out = parent p
        /\ name out = stem p +:+ "-stripped.pdf"
        /\ lower (suffix out) = ".pdf")
  /\ (forall (p : Path),
        name p <> "" ->
        resolve_output_path os fs p None false force multiple_inputs
        = if exists_ fs (stripped_sibling p) && negb force
          then Raise (Exn FileExistsError (msg_exists (stripped_sibling p)))
          else Ok (stripped_sibling p)).
Proof.
  split; [|split; [|intros p Hn; by apply resolve_output_path_default]].
  - intros dir s Hs.
    set (p := (dir ++ [s +:+ ".pdf"])%list).
    assert (Hname : name p = s +:+ ".pdf") by (unfold name, p; apply last_last).
    assert (Hne : name p <> "").
    { rewrite Hname. destruct s; [done|]. by rewrite append_cons. }
    rewrite resolve_output_path_default by done.
    destruct (stem_of_pdf_name p s Hs Hname) as [Hstem _].
    unfold stripped_sibling, parent. rewrite Hstem. unfold p.
    by rewrite removelast_last.
  - intros p out H. unfold resolve_output_path, output_candidate in H.
    simpl in H.
    destruct (with_name p (stem p +:+ "-stripped.pdf")) as [q|e] eqn:Hq;
      [|done].
    simpl in H. case_match; simplify_eq.
    apply with_name_ok in Hq as (Hn & Hp & _).
    split; [done|]. split; [done|].
    unfold suffix. rewrite Hn.
    change "-stripped.pdf" with ("-stripped" +:+ ".pdf").
    rewrite append_assoc.
    rewrite (suffix_index_append (stem p +:+ "-stripped") ".pdf");
      [by rewrite str_drop_append | | done | simpl; lia].
    intros Hs. apply (f_equal String.length) in Hs.
    rewrite length_append in Hs. simpl in Hs. lia.
Qed.

Lemma default_output_is_stripped_sibling_witness :
  resolve_output_path Scenario.os_ok Scenario.fs0 Scenario.a_pdf None false
    false false = Ok Scenario.a_stripped
  /\ resolve_output_path Scenario.os_ok Scenario.fs_taken Scenario.b_pdf None
       false false false
     = Raise (Exn FileExistsError
         "Output already exists: /home/u/b-stripped.pdf (use --force to overwrite).").
Proof.
  split.
  - destruct (default_output_is_stripped_sibling
                Scenario.os_ok Scenario.fs0 false false) as [H _].
    change Scenario.a_pdf with (Scenario.home_u ++ ["a" +:+ ".pdf"])%list.
    rewrite H by done. by vm_compute.
  - destruct (default_output_is_stripped_sibling
                Scenario.os_ok Scenario.fs_taken false false) as (H & _ & _).
    change Scenario.b_pdf with (Scenario.home_u ++ ["b" +:+ ".pdf"])%list.
    rewrite H by done. by vm_compute.
Defined.

(** C9. An output argument that is the empty string is the same as no
    output argument, for every input and every combination of the other
    flags: [resolve_output_path] returns what it returns without it, which
    is the input path under the in-place flag and otherwise the derived
    [<stem>-stripped.pdf] name (subject to the existence check); neither
    the single-input error nor the output/in-place conflict error is
    raised, whatever [multiple_inputs] and [in_place] are. *)
Theorem empty_output_argument_is_absent
    (os : OS) (fs : FileSys) (p : Path) (in_place force multiple_inputs : bool) :
  resolve_output_path os fs p (Some "") in_place force multiple_inputs
  = resolve_output_path os fs p None in_place force multiple_inputs
  /\ resolve_output_path os fs p (Some "") in_place force multiple_inputs
     = (if in_place then Ok p
        else match with_name p (stem p +:+ "-stripped.pdf") with
             | Ok out =>
                 if exists_ fs out && negb force
                 then Raise (Exn FileExistsError (msg_exists out))
                 else Ok out
             | Raise e => Raise e
             end)
  /\ resolve_output_path os fs p (Some "") in_place force multiple_inputs
     <> Raise (Exn ValueError msg_single_input)
  /\ resolve_output_path os fs p (Some "") in_place force multiple_inputs
     <> Raise (Exn ValueError msg_either).
Proof.
  assert (Hshape :
    resolve_output_path os fs p (Some "") in_place force multiple_inputs
    = (if in_place then Ok p
       else match with_name p (stem p +:+ "-stripped.pdf") with
            | Ok out =>
                if exists_ fs out && negb force
                then Raise (Exn FileExistsError (msg_exists out))
                else Ok out
            | Raise e => Raise e
            end)).
  { destruct in_place.
    - by apply resolve_output_path_in_place.
    - unfold resolve_output_path, output_candidate. simpl.
      destruct (with_name p _) as [out|e] eqn:Hout; [|done]. simpl.
      rewrite bool_decide_true, andb_true_r; [done|].
      eapply with_name_fresh; [done|]. apply stem_stripped_name_fresh. }
  split; [reflexivity|]. split; [exact Hshape|].
  rewrite Hshape. destruct in_place; [done|].
  unfold with_name, msg_single_input, msg_either.
  destruct (name p =? ""); simpl.
  - split; by intros [=].
  - split; destruct (exists_ fs _ && negb force); by intros [=].
Qed.

(* ===================================================================== *)
(** ** The driver                                                         *)
(* ===================================================================== *)

Section Driver.

Variable os : OS.

Lemma validate_loop_pass (paths : list Path) (w : World) :
  Forall (fun p => valid_input (files w) p = true) paths ->
  validate_loop paths w = (Ok None, w).
Proof.
  induction 1 as [|p rest Hp _ IH]; [done|].
  apply andb_prop in Hp as [He Hs].
  cbn [validate_loop]. unfold mbind at 1. unfold M_bind, read_files.
  by rewrite He, Hs.
Qed.

Lemma validate_loop_fail (pre post : list Path) (p : Path) (w : World) :
  Forall (fun q => valid_input (files w) q = true) pre ->
  valid_input (files w) p = false ->
  validate_loop (pre ++ p :: post) w
  = (Ok (Some 1%Z), with_stderr_line (validation_error (files w) p) w).
Proof.
  intros Hpre Hp. induction Hpre as [|q pre Hq _ IH].
  - cbn [app validate_loop]. unfold mbind at 1. unfold M_bind, read_files.
    unfold validation_error. unfold valid_input in Hp.
    destruct (exists_ (files w) p); [|done].
    simpl in Hp. by rewrite Hp.
  - apply andb_prop in Hq as [He Hs].
    cbn [app validate_loop]. unfold mbind at 1. unfold M_bind, read_files.
    by rewrite He, Hs.
Qed.

Lemma first_invalid_split (fs : FileSys) (l : list Path) (p : Path) :
  p ∈ l -> valid_input fs p = false ->
  exists pre q post,
    l = (pre ++ q :: post)%list
    /\ Forall (fun x => valid_input fs x = true) pre
    /\ valid_input fs q = false.
Proof.
  intros Hin Hp. induction l as [|a l IH]; [by apply elem_of_nil in Hin|].
  destruct (valid_input fs a) eqn:Ha.
  - apply elem_of_cons in Hin as [->|Hin]; [congruence|].
    destruct (IH Hin) as (pre & q & post & -> & Hpre & Hq).
    exists (a :: pre), q, post. split; [done|]. split; [|done].
    by constructor.
  - exists [], a, l. by repeat split.
Qed.

(** [main], once line 93 has produced the resolved paths. *)
Lemma main_unfold (args : Args) (input_paths : list Path) (w : World) :
  comprehension (expand_resolve os) (inputs args) = Ok input_paths ->
  main os args w
  = match validate_loop input_paths w with
    | (Ok (Some code), w1) => (Ok code, w1)
    | (Ok None, w1) =>
        match process_loop os args (1 <? length input_paths)%nat
                input_paths w1 with
        | (Ok _, w2) => (Ok 0%Z, w2)
        | (Raise exc, w2) => (Ok 1%Z, with_stderr_line (msg_error exc) w2)
        end
    | (Raise e, w1) => (Raise e, w1)
    end.
Proof.
  intros Hres. unfold main. rewrite Hres.
  unfold mbind at 1. unfold M_bind at 1. unfold lift.
  unfold mbind at 1. unfold M_bind at 1.
  destruct (validate_loop input_paths w) as [[[code|]|e] w1]; try done.
  unfold try_except, mbind, M_bind.
  by destruct (process_loop _ _ _ _ _) as [[[]|exc] w2].
Qed.

Lemma process_one_inv (args : Args) (mi : bool) (p : Path) (w w' : World)
    (r : result unit) :
  process_one os args mi p w = (r, w') ->
  (exists e, resolve_output_path os (files w) p (output args) (in_place args)
               (force args) mi = Raise e
             /\ r = Raise e /\ w' = w)
  \/ (exists out e fs',
        resolve_output_path os (files w) p (output args) (in_place args)
          (force args) mi = Ok out
        /\ strip_metadata os p out (password args) (files w) = (Raise e, fs')
        /\ r = Raise e /\ w' = with_files fs' w)
  \/ (exists out fs',
        resolve_output_path os (files w) p (output args) (in_place args)
          (force args) mi = Ok out
        /\ strip_metadata os p out (password args) (files w) = (Ok tt, fs')
        /\ r = Ok tt
        /\ w' = with_stdout_line (msg_processed p out) (with_files fs' w)).
Proof.
  unfold process_one, mbind, M_bind, read_files, lift, on_files, print_stdout.
  destruct (resolve_output_path _ _ _ _ _ _ _) as [out|e] eqn:Hres.
  - destruct (strip_metadata _ _ _ _ _) as [[[]|e] fs'] eqn:Hs;
      intros [= <- <-].
    + right; right. by exists out, fs'.
    + right; left. by exists out, e, fs'.
  - intros [= <- <-]. left. by exists e.
Qed.

(** A step that raises prints nothing. *)
Lemma process_one_raise_streams (args : Args) (mi : bool) (p : Path)
    (w w' : World) (e : exn) :
  process_one os args mi p w = (Raise e, w') ->
  stdout w' = stdout w /\ stderr w' = stderr w.
Proof.
  intros H. apply process_one_inv in H
    as [(e' & _ & _ & ->)|[(out & e' & fs' & _ & _ & _ & ->)
                          |(out & fs' & _ & _ & ? & _)]]; done.
Qed.

Lemma process_loop_cons (args : Args) (mi : bool) (p : Path)
    (rest : list Path) (w : World) :
  process_loop os args mi (p :: rest) w
  = match process_one os args mi p w with
    | (Ok _, w1) => process_loop os args mi rest w1
    | (Raise e, w1) => (Raise e, w1)
    end.
Proof. reflexivity. Qed.

Lemma process_loop_app (args : Args) (mi : bool) (l1 l2 : list Path)
    (w : World) :
  process_loop os args mi (l1 ++ l2) w
  = match process_loop os args mi l1 w with
    | (Ok _, w1) => process_loop os args mi l2 w1
    | (Raise e, w1) => (Raise e, w1)
    end.
Proof.
  revert w. induction l1 as [|p l1 IH]; intros w; [done|].
  rewrite <- app_comm_cons, !process_loop_cons.
  destruct (process_one os args mi p w) as [[[]|e] w1]; [apply IH|done].
Qed.

(** A loop that ran to its end: after each of its files, exactly the
    lines of the files up to that one are on stdout, in order, and
    stderr is untouched. *)
Lemma process_loop_ok_trace (args : Args) (mi : bool) (l : list Path)
    (w w' : World) :
  process_loop os args mi l w = (Ok tt, w') ->
  exists outs,
    length outs = length l
    /\ forall j, j <= length l ->
         exists w_j,
           process_loop os args mi (take j l) w = (Ok tt, w_j)
           /\ stdout w_j
              = (stdout w ++ zip_with msg_processed (take j l) (take j outs))%list
           /\ stderr w_j = stderr w.
Proof.
  revert w. induction l as [|p l IH]; intros w H.
  - exists []. split; [done|]. intros j Hj. exists w.
    rewrite take_nil. simpl. by rewrite app_nil_r.
  - rewrite process_loop_cons in H.
    destruct (process_one os args mi p w) as [[[]|e] w1] eqn:Hone; [|done].
    destruct (IH _ H) as (outs & Hlen & Hpre).
    pose proof Hone as Hone'.
    apply process_one_inv in Hone
      as [(e' & _ & ? & _)|[(out & e' & fs' & _ & _ & ? & _)
                          |(out & fs' & Hres & Hstrip & _ & Hw1)]];
      [done|done|].
    exists (out :: outs). split; [simpl; by rewrite Hlen|].
    intros [|j] Hj.
    + exists w. simpl. by rewrite app_nil_r.
    + destruct (Hpre j) as (w_j & Hrun & Hout & Herr); [simpl in Hj; lia|].
      exists w_j. rewrite !firstn_cons, process_loop_cons, Hone'.
      split; [done|].
      rewrite Hout, Herr, Hw1. simpl. by rewrite <- app_assoc.
Qed.

(** A loop that raised: some prefix ran to its end, and the step for the
    next file raised. *)
Lemma process_loop_raise_inv (args : Args) (mi : bool) (l : list Path)
    (w w' : World) (e : exn) :
  process_loop os args mi l w = (Raise e, w') ->
  exists k p w_k,
    l !! k = Some p
    /\ process_loop os args mi (take k l) w = (Ok tt, w_k)
    /\ process_one os args mi p w_k = (Raise e, w').
Proof.
  revert w. induction l as [|p l IH]; intros w H; [done|].
  rewrite process_loop_cons in H.
  destruct (process_one os args mi p w) as [[[]|e1] w1] eqn:Hone.
  - destruct (IH _ H) as (k & q & w_k & Hk & Hrun & Hq).
    exists (S k), q, w_k. split; [done|]. split; [|done].
    rewrite firstn_cons, process_loop_cons. by rewrite Hone.
  - injection H as -> ->. exists 0, p, w. by repeat split.
Qed.

End Driver.

Section DriverPhases.

Variable os : OS.

(** The first loop either accepts every input and changes nothing, or
    prints one line for the first input it rejects and returns 1. *)
Lemma validate_loop_cases (paths : list Path) (w : World) :
  (Forall (fun p => valid_input (files w) p = true) paths
   /\ validate_loop paths w = (Ok None, w))
  \/ (exists pre q post,
        paths = (pre ++ q :: post)%list
        /\ Forall (fun p => valid_input (files w) p = true) pre
        /\ valid_input (files w) q = false
        /\ validate_loop paths w
           = (Ok (Some 1%Z),
              with_stderr_line (validation_error (files w) q) w)).
Proof.
  destruct (decide (Forall (fun p => valid_input (files w) p = true) paths))
    as [Hall|Hnot].
  - left. split; [done|]. by apply validate_loop_pass.
  - right. apply not_Forall_Exists in Hnot; [|apply _].
    apply Exists_exists in Hnot as (p & Hin & Hp).
    simpl in Hp.
    apply not_true_is_false in Hp.
    destruct (first_invalid_split _ _ _ Hin Hp)
      as (pre & q & post & -> & Hpre & Hq).
    exists pre, q, post. split; [done|]. split; [done|]. split; [done|].
    by apply validate_loop_fail.
Qed.

(** A run whose first processing step raises at the resolver. *)
Lemma main_resolver_raises_first (args : Args) (p : Path)
    (rest : list Path) (w : World) (e : exn) :
  comprehension (expand_resolve os) (inputs args) = Ok (p :: rest) ->
  (forall fs, resolve_output_path os fs p (output args) (in_place args)
                (force args) (1 <? length (p :: rest))%nat = Raise e) ->
  exists line,
    main os args w = (Ok 1%Z, with_stderr_line line w)
    /\ (Forall (fun q => valid_input (files w) q = true) (p :: rest) ->
        line = msg_error e).
Proof.
  intros Hres Hraise. rewrite (main_unfold os args _ w Hres).
  destruct (validate_loop_cases (p :: rest) w)
    as [(Hall & ->)|(pre & q & post & Heq & Hpre & Hq & ->)].
  - rewrite process_loop_cons.
    unfold process_one, mbind at 1 2, M_bind, read_files, lift.
    rewrite Hraise. by exists (msg_error e).
  - eexists. split; [done|]. intros Hall. rewrite Heq in Hall.
    apply Forall_app in Hall as [_ Hall]. apply Forall_cons in Hall as [Hv _].
    congruence.
Qed.

End DriverPhases.

(** C3. If some resolved input path does not exist, or exists with an
    extension that is not [.pdf] in any capitalisation, [main] returns 1.
    The only thing it has done is to print one line to stderr, for the
    first such input [q] in the order given: [ERROR: File not found: q]
    when [q] does not exist, [ERROR: Not a PDF file: q] when it does.  No
    file has been read, created or changed and nothing is on stdout,
    wherever in the list the offending input stands. *)
Theorem invalid_input_stops_the_run_before_any_processing
    (os : OS) (args : Args) (w : World) (input_paths : list Path) (p : Path) :
  comprehension (expand_resolve os) (inputs args) = Ok input_paths ->
  p ∈ input_paths ->
  exists_ (files w) p = false \/ lower (suffix p) <> ".pdf" ->
  exists pre q post w',
    input_paths = (pre ++ q :: post)%list
    /\ Forall (fun x => valid_input (files w) x = true) pre
    /\ main os args w = (Ok 1%Z, w')
    /\ files w' = files w
    /\ stdout w' = stdout w
    /\ ((exists_ (files w) q = false
         /\ stderr w'
            = (stderr w ++ ["ERROR: File not found: " +:+ path_str q])%list)
        \/ (exists_ (files w) q = true
            /\ lower (suffix q) <> ".pdf"
            /\ stderr w'
               = (stderr w ++ ["ERROR: Not a PDF file: " +:+ path_str q])%list)).
Proof.
  intros Hres Hin Hbad.
  assert (Hp : valid_input (files w) p = false).
  { unfold valid_input. destruct Hbad as [->|Hs]; [done|].
    apply andb_false_iff. right. by apply String.eqb_neq. }
  rewrite (main_unfold os args _ w Hres).
  destruct (validate_loop_cases input_paths w)
    as [(Hall & _)|(pre & q & post & Heq & Hpre & Hq & ->)].
  { rewrite Forall_forall in Hall. specialize (Hall p Hin). congruence. }
  exists pre, q, post, (with_stderr_line (validation_error (files w) q) w).
  do 5 (split; [done|]).
  unfold validation_error, valid_input in *.
  destruct (exists_ (files w) q); [right|left; done].
  split; [done|]. split; [|done]. simpl in Hq. by apply String.eqb_neq.
Qed.

Lemma invalid_input_stops_the_run_before_any_processing_witness :
  exists pre q post w',
    [Scenario.a_pdf; Scenario.notes_txt; Scenario.out_pdf]
    = (pre ++ q :: post)%list
    /\ Forall (fun x => valid_input Scenario.fs0 x = true) pre
    /\ main Scenario.os_ok
         (MkArgs ["a.pdf"; "notes.txt"; "out.pdf"] None true None true)
         (Scenario.world Scenario.fs0) = (Ok 1%Z, w')
    /\ files w' = Scenario.fs0
    /\ stdout w' = []
    /\ ((exists_ Scenario.fs0 q = false
         /\ stderr w' = ([] ++ ["ERROR: File not found: " +:+ path_str q])%list)
        \/ (exists_ Scenario.fs0 q = true
            /\ lower (suffix q) <> ".pdf"
            /\ stderr w'
               = ([] ++ ["ERROR: Not a PDF file: " +:+ path_str q])%list)).
Proof.
  apply (invalid_input_stops_the_run_before_any_processing
           Scenario.os_ok
           (MkArgs ["a.pdf"; "notes.txt"; "out.pdf"] None true None true)
           (Scenario.world Scenario.fs0) _ Scenario.out_pdf).
  - reflexivity.
  - apply list_elem_of_In. simpl. tauto.
  - left. by vm_compute.
Defined.

(** C4. With an output argument that is set (a non-empty string),
    [resolve_output_path] raises the single-input configuration error
    whenever there are multiple inputs, and the either-or configuration
    error whenever the in-place flag is set with a single input; it does so
    before looking at the file system.  A run with such arguments returns
    1 having printed one line to stderr and nothing else: no file is
    created or changed. *)
Theorem output_conflicts_are_configuration_errors
    (os : OS) (output_arg : option string) :
  truthy output_arg = true ->
  (forall fs p in_place force,
     resolve_output_path os fs p output_arg in_place force true
     = Raise (Exn ValueError msg_single_input))
  /\ (forall fs p force,
        resolve_output_path os fs p output_arg true force false
        = Raise (Exn ValueError msg_either))
  /\ (forall args w input_paths,
        output args = output_arg ->
        comprehension (expand_resolve os) (inputs args) = Ok input_paths ->
        (1 < length input_paths
         \/ (in_place args = true /\ input_paths <> [])) ->
        exists line w',
          main os args w = (Ok 1%Z, w')
          /\ files w' = files w
          /\ stdout w' = stdout w
          /\ stderr w' = (stderr w ++ [line])%list
          /\ (Forall (fun q => valid_input (files w) q = true) input_paths ->
              line = "ERROR: " +:+ (if (1 <? length input_paths)%nat
                                    then msg_single_input else msg_either))).
Proof.
  intros Ht.
  assert (H1 : forall fs p in_place force,
    resolve_output_path os fs p output_arg in_place force true
    = Raise (Exn ValueError msg_single_input)).
  { intros. unfold resolve_output_path, output_candidate. by rewrite Ht. }
  assert (H2 : forall fs p force,
    resolve_output_path os fs p output_arg true force false
    = Raise (Exn ValueError msg_either)).
  { intros. unfold resolve_output_path, output_candidate. by rewrite Ht. }
  split; [done|]. split; [done|].
  intros args w [|p rest] Hout Hres Hcase.
  { simpl in Hcase. destruct Hcase as [?|[_ ?]]; [lia|done]. }
  destruct (1 <? length (p :: rest))%nat eqn:Hmi.
  - destruct (main_resolver_raises_first os args p rest w
                (Exn ValueError msg_single_input) Hres)
      as (line & Hmain & Hline).
    { intros fs. rewrite Hmi, Hout. apply H1. }
    exists line, (with_stderr_line line w). by repeat split.
  - destruct Hcase as [Hlen|[Hip _]].
    { apply Nat.ltb_ge in Hmi. lia. }
    destruct (main_resolver_raises_first os args p rest w
                (Exn ValueError msg_either) Hres)
      as (line & Hmain & Hline).
    { intros fs. rewrite Hmi, Hout, Hip. apply H2. }
    exists line, (with_stderr_line line w). by repeat split.
Qed.

Lemma output_conflicts_are_configuration_errors_witness :
  exists line w',
    main Scenario.os_ok
      (MkArgs ["a.pdf"; "b.pdf"] (Some "out.pdf") false None false)
      (Scenario.world Scenario.fs0) = (Ok 1%Z, w')
    /\ files w' = Scenario.fs0
    /\ stdout w' = []
    /\ stderr w' = ([] ++ [line])%list
    /\ (Forall (fun q => valid_input Scenario.fs0 q = true)
          [Scenario.a_pdf; Scenario.b_pdf] ->
        line = "ERROR: " +:+ msg_single_input).
Proof.
  destruct (output_conflicts_are_configuration_errors
              Scenario.os_ok (Some "out.pdf") eq_refl) as (_ & _ & H).
  apply (H (MkArgs ["a.pdf"; "b.pdf"] (Some "out.pdf") false None false)
           (Scenario.world Scenario.fs0) [Scenario.a_pdf; Scenario.b_pdf]).
  - reflexivity.
  - reflexivity.
  - left. simpl. lia.
Defined.

(** C5. When the path computed for an input exists, differs from the input
    path and the force flag is false, [resolve_output_path] raises the
    file-exists error whose message names that path.  A computed path that
    is the input path itself is returned whatever exists and whatever the
    force flag is.  In a run that reaches such an input after processing
    the inputs before it, [main] returns 1 with the file system exactly as
    it was at that moment, so the file found at the output path is
    untouched, and the error line is the last thing printed. *)
Theorem existing_output_is_refused_and_left_alone
    (os : OS) (p : Path) (output_arg : option string)
    (in_place_flag multiple_inputs : bool) :
  (forall fs out,
     output_candidate os p output_arg in_place_flag multiple_inputs = Ok out ->
     exists_ fs out = true ->
     out <> p ->
     resolve_output_path os fs p output_arg in_place_flag false multiple_inputs
     = Raise (Exn FileExistsError
                ("Output already exists: " +:+ path_str out
                   +:+ " (use --force to overwrite).")))
  /\ (forall fs force_flag,
        output_candidate os p output_arg in_place_flag multiple_inputs = Ok p ->
        resolve_output_path os fs p output_arg in_place_flag force_flag
          multiple_inputs
        = Ok p)
  /\ (forall args w w_k input_paths pre post out,
        output args = output_arg ->
        in_place args = in_place_flag ->
        force args = false ->
        comprehension (expand_resolve os) (inputs args) = Ok input_paths ->
        Forall (fun q => valid_input (files w) q = true) input_paths ->
        input_paths = (pre ++ p :: post)%list ->
        multiple_inputs = (1 <? length input_paths)%nat ->
        process_loop os args multiple_inputs pre w = (Ok tt, w_k) ->
        output_candidate os p output_arg in_place_flag multiple_inputs
        = Ok out ->
        exists_ (files w_k) out = true ->
        out <> p ->
        exists w',
          main os args w = (Ok 1%Z, w')
          /\ files w' = files w_k
          /\ stdout w' = stdout w_k
          /\ stderr w'
             = (stderr w ++ ["ERROR: Output already exists: " +:+ path_str out
                               +:+ " (use --force to overwrite)."])%list).
Proof.
  assert (H1 : forall fs out,
    output_candidate os p output_arg in_place_flag multiple_inputs = Ok out ->
    exists_ fs out = true -> out <> p ->
    resolve_output_path os fs p output_arg in_place_flag false multiple_inputs
    = Raise (Exn FileExistsError (msg_exists out))).
  { intros fs out Hc He Hne.
    rewrite (resolve_output_path_check _ _ _ out) by done.
    by rewrite He, bool_decide_true. }
  split; [exact H1|]. split.
  - intros fs force_flag Hc.
    rewrite (resolve_output_path_check _ _ _ p) by done.
    rewrite bool_decide_false by (by intros []). by rewrite andb_false_r.
  - intros args w w_k input_paths pre post out Hout Hip Hf Hres Hall -> Hmi
      Hpre Hc He Hne.
    pose proof (process_loop_ok_trace _ _ _ _ _ _ Hpre) as (outs & _ & Htr).
    destruct (Htr (length pre) (le_n _)) as (w_j & Hrun & _ & Herr).
    rewrite firstn_all, Hpre in Hrun. injection Hrun as <-.
    rewrite (main_unfold os args _ w Hres).
    rewrite validate_loop_pass by done.
    rewrite <- Hmi, process_loop_app, Hpre, process_loop_cons.
    unfold process_one, mbind at 1 2, M_bind, read_files, lift.
    rewrite Hout, Hip, Hf, (H1 _ out) by done.
    eexists. split; [done|]. split; [done|]. split; [done|]. simpl.
    by rewrite Herr.
Qed.

Lemma existing_output_is_refused_and_left_alone_witness :
  exists w',
    main Scenario.os_ok (MkArgs ["b.pdf"] None false None false)
      (Scenario.world Scenario.fs_taken) = (Ok 1%Z, w')
    /\ files w' = Scenario.fs_taken
    /\ stdout w' = []
    /\ stderr w'
       = ([] ++ ["ERROR: Output already exists: "
                   +:+ path_str Scenario.b_stripped
                   +:+ " (use --force to overwrite)."])%list.
Proof.
  destruct (existing_output_is_refused_and_left_alone
              Scenario.os_ok Scenario.b_pdf None false false) as (_ & _ & H).
  apply (H (MkArgs ["b.pdf"] None false None false)
           (Scenario.world Scenario.fs_taken)
           (Scenario.world Scenario.fs_taken)
           [Scenario.b_pdf] [] [] Scenario.b_stripped);
    try reflexivity; try (by vm_compute).
  by repeat constructor.
Defined.

Section CompletedSteps.

Variable os : OS.

(** A loop that ran to its end has resolved, stripped and reported every
    one of its inputs, in order. *)
Lemma process_loop_ok_steps (args : Args) (mi : bool) (l : list Path)
    (w w' : World) :
  process_loop os args mi l w = (Ok tt, w') ->
  exists outs,
    completed_steps os args mi w l outs w'
    /\ stdout w' = (stdout w ++ zip_with msg_processed l outs)%list.
Proof.
  revert w. induction l as [|p l IH]; intros w H.
  - injection H as <-. exists []. split; [constructor|].
    simpl. by rewrite app_nil_r.
  - rewrite process_loop_cons in H.
    destruct (process_one os args mi p w) as [[[]|e] w1] eqn:Hone; [|done].
    destruct (IH _ H) as (outs & Hsteps & Hout).
    apply process_one_inv in Hone
      as [(e' & _ & ? & _)|[(out & e' & fs' & _ & _ & ? & _)
                          |(out & fs' & Hres & Hstrip & _ & ->)]];
      [done|done|].
    exists (out :: outs). split.
    + by apply (completed_next os args mi w
                  (with_stdout_line (msg_processed p out) (with_files fs' w))
                  w' p out l outs Hres).
    + rewrite Hout. simpl. by rewrite <- app_assoc.
Qed.

End CompletedSteps.



(* ===================================================================== *)
(** ** Further properties of the script                                   *)
(* ===================================================================== *)

Lemma stem_empty (p : Path) : stem p = "" -> name p = "".
Proof.
  unfold stem. destruct (suffix_index (name p)) as [i|] eqn:E; [|done].
  apply suffix_index_bound in E as [Hi Hlen].
  destruct i as [|i]; [lia|]. by destruct (name p).
Qed.


Section DefaultMode.

Variable os : OS.

(** In the default mode the resolver can only return the derived sibling. *)
Lemma resolve_output_path_default_inv (fs : FileSys) (p out : Path)
    (output_arg : option string) (force_flag multiple_inputs : bool) :
  truthy output_arg = false ->
  resolve_output_path os fs p output_arg false force_flag multiple_inputs
  = Ok out ->
  out = stripped_sibling p /\ name p <> "".
Proof.
  intros Ht. unfold resolve_output_path, output_candidate. rewrite Ht.
  unfold with_name. destruct (String.eqb_spec (name p) ""); [done|].
  simpl. fold (stripped_sibling p). case_match; [done|]. by intros [= <-].
Qed.

End DefaultMode.

Section StepEvaluation.

Variable os : OS.

Lemma process_one_resolve_raises (args : Args) (mi : bool) (p : Path)
    (w : World) (e : exn) :
  resolve_output_path os (files w) p (output args) (in_place args)
    (force args) mi = Raise e ->
  process_one os args mi p w = (Raise e, w).
Proof.
  intros H. unfold process_one, mbind at 1 2, M_bind, read_files, lift.
  by rewrite H.
Qed.

Lemma process_one_strip_raises (args : Args) (mi : bool) (p out : Path)
    (w : World) (e : exn) (fs' : FileSys) :
  resolve_output_path os (files w) p (output args) (in_place args)
    (force args) mi = Ok out ->
  strip_metadata os p out (password args) (files w) = (Raise e, fs') ->
  process_one os args mi p w = (Raise e, with_files fs' w).
Proof.
  intros H Hs. unfold process_one, mbind, M_bind, read_files, lift, on_files.
  by rewrite H, Hs.
Qed.

Lemma process_one_succeeds (args : Args) (mi : bool) (p out : Path)
    (w : World) (fs' : FileSys) :
  resolve_output_path os (files w) p (output args) (in_place args)
    (force args) mi = Ok out ->
  strip_metadata os p out (password args) (files w) = (Ok tt, fs') ->
  process_one os args mi p w
  = (Ok tt, with_stdout_line (msg_processed p out) (with_files fs' w)).
Proof.
  intros H Hs.
  unfold process_one, mbind, M_bind, read_files, lift, on_files, print_stdout.
  by rewrite H, Hs.
Qed.

End StepEvaluation.

(** X3. An explicit output argument that resolves to the input path itself
    makes the step an in-place rewrite: the existence check is skipped
    whatever the force flag is, and the step does exactly what it does
    under the in-place flag with no output argument (temporary sibling,
    then rename), printing the same line. *)
Theorem output_equal_to_input_is_an_in_place_rewrite
    (os : OS) (p : Path) (s : string) (w : World)
    (ins ins' : list string) (pw : option string) (f f' : bool) :
  s <> "" ->
  expand_resolve os s = Ok p ->
  resolve_output_path os (files w) p (Some s) false f false = Ok p
  /\ process_one os (MkArgs ins (Some s) false pw f) false p w
     = process_one os (MkArgs ins' None true pw f') false p w.
Proof.
  intros Hs Hp.
  assert (Hres : forall fs,
    resolve_output_path os fs p (Some s) false f false = Ok p).
  { intros fs. unfold resolve_output_path, output_candidate. simpl.
    destruct (String.eqb_spec s ""); [done|]. simpl. rewrite Hp. simpl.
    rewrite bool_decide_false by (by intros []). by rewrite andb_false_r. }
  split; [apply Hres|].
  unfold process_one, mbind at 1 2 4 5, M_bind, read_files, lift. simpl.
  by rewrite Hres, resolve_output_path_in_place.
Qed.

Lemma output_equal_to_input_is_an_in_place_rewrite_witness :
  resolve_output_path Scenario.os_ok Scenario.fs0 Scenario.a_pdf
    (Some "a.pdf") false false false = Ok Scenario.a_pdf
  /\ process_one Scenario.os_ok
       (MkArgs ["a.pdf"] (Some "a.pdf") false None false) false
       Scenario.a_pdf (Scenario.world Scenario.fs0)
     = process_one Scenario.os_ok (MkArgs ["a.pdf"] None true None false)
         false Scenario.a_pdf (Scenario.world Scenario.fs0).
Proof.
  apply (output_equal_to_input_is_an_in_place_rewrite Scenario.os_ok
           Scenario.a_pdf "a.pdf" (Scenario.world Scenario.fs0)); done.
Defined.

(** X4. The force flag never changes where the output goes.  What the
    resolver returns without it, it returns with it; what it raises with
    it, it raises without it; and a path returned with it is, without it,
    either returned as well or refused by the file-exists error for that
    same path, which then exists and is not the input. *)
Theorem force_only_lifts_the_file_exists_error
    (os : OS) (fs : FileSys) (p : Path) (output_arg : option string)
    (in_place_flag multiple_inputs : bool) :
  (forall out,
     resolve_output_path os fs p output_arg in_place_flag false multiple_inputs
     = Ok out ->
     resolve_output_path os fs p output_arg in_place_flag true multiple_inputs
     = Ok out)
  /\ (forall e,
        resolve_output_path os fs p output_arg in_place_flag true
          multiple_inputs = Raise e ->
        resolve_output_path os fs p output_arg in_place_flag false
          multiple_inputs = Raise e)
  /\ (forall out,
        resolve_output_path os fs p output_arg in_place_flag true
          multiple_inputs = Ok out ->
        resolve_output_path os fs p output_arg in_place_flag false
          multiple_inputs = Ok out
        \/ (resolve_output_path os fs p output_arg in_place_flag false
              multiple_inputs
            = Raise (Exn FileExistsError (msg_exists out))
            /\ exists_ fs out = true /\ out <> p)).
Proof.
  unfold resolve_output_path.
  destruct (output_candidate os p output_arg in_place_flag multiple_inputs)
    as [c|e0]; simpl; [|by repeat split].
  rewrite !andb_false_r, !andb_true_r.
  split; [|split].
  - intros out. by case_match.
  - done.
  - intros out [= <-]. destruct (exists_ fs c) eqn:He; [|by left].
    case_bool_decide; simpl; [right|left]; done.
Qed.

Lemma force_only_lifts_the_file_exists_error_witness :
  resolve_output_path Scenario.os_ok Scenario.fs_taken Scenario.b_pdf None
    false false false
  = Raise (Exn FileExistsError (msg_exists Scenario.b_stripped))
  /\ exists_ Scenario.fs_taken Scenario.b_stripped = true
  /\ Scenario.b_stripped <> Scenario.b_pdf.
Proof.
  destruct (force_only_lifts_the_file_exists_error Scenario.os_ok
              Scenario.fs_taken Scenario.b_pdf None false false)
    as (_ & _ & H).
  destruct (H Scenario.b_stripped) as [H1|H1]; [by vm_compute | | exact H1].
  exfalso. revert H1. by vm_compute.
Defined.

Section PasswordUse.

Variable os : OS.

(** An input that cannot be parsed stops [strip_metadata] at its first
    line, whatever the other arguments are. *)
Lemma strip_metadata_unreadable (fs : FileSys) (input_path : Path) :
  (forall d, fs !! input_path <> Some (File (Pdf d))) ->
  exists e, forall output_path password,
    strip_metadata os input_path output_path password fs = (Raise e, fs).
Proof.
  intros Hno.
  assert (exists e, open_reader input_path fs = (Raise e, fs)) as [e He].
  { unfold open_reader. destruct (fs !! input_path) as [[|[d|bs]]|] eqn:E;
      eauto. by destruct (Hno d). }
  exists e. intros output_path password. unfold strip_metadata.
  by rewrite (bind_raise_step _ _ _ _ _ He).
Qed.

End PasswordUse.

(** X5. The password reaches nothing but the gate of lines 70-74.  For an
    input that holds no encrypted document (an unencrypted one, or nothing
    readable at all) [strip_metadata] does the same for every password,
    given or not; and for an encrypted document any two passwords that
    pass the gate, the user's and the owner's for instance, give the same
    result. *)
Theorem password_matters_only_at_the_gate
    (os : OS) (fs : FileSys) (input_path output_path : Path)
    (password password' : option string) :
  ((forall d, fs !! input_path = Some (File (Pdf d)) -> encryption d = None) ->
   strip_metadata os input_path output_path password fs
   = strip_metadata os input_path output_path password' fs)
  /\ (forall d,
        fs !! input_path = Some (File (Pdf d)) ->
        password_opens d password = true ->
        password_opens d password' = true ->
        strip_metadata os input_path output_path password fs
        = strip_metadata os input_path output_path password' fs).
Proof.
  assert (Hgate : forall d,
    fs !! input_path = Some (File (Pdf d)) ->
    password_opens d password = true ->
    password_opens d password' = true ->
    strip_metadata os input_path output_path password fs
    = strip_metadata os input_path output_path password' fs).
  { intros d Hin H1 H2.
    by rewrite !(strip_metadata_past_gate os fs _ _ _ d). }
  split; [|exact Hgate].
  intros Hplain.
  destruct (fs !! input_path) as [[|[d|bs]]|] eqn:E.
  - destruct (strip_metadata_unreadable os fs input_path) as [e He];
      [by rewrite E|]. by rewrite !He.
  - apply (Hgate d); [done| |]; unfold password_opens;
      by rewrite (Hplain d eq_refl).
  - destruct (strip_metadata_unreadable os fs input_path) as [e He];
      [by rewrite E|]. by rewrite !He.
  - destruct (strip_metadata_unreadable os fs input_path) as [e He];
      [by rewrite E|]. by rewrite !He.
Qed.

Lemma password_matters_only_at_the_gate_witness :
  strip_metadata Scenario.os_ok Scenario.secret_pdf Scenario.out_pdf
    (Some "open") Scenario.fs0
  = strip_metadata Scenario.os_ok Scenario.secret_pdf Scenario.out_pdf
      (Some "own") Scenario.fs0
  /\ strip_metadata Scenario.os_ok Scenario.a_pdf Scenario.out_pdf
       (Some "anything") Scenario.fs0
     = strip_metadata Scenario.os_ok Scenario.a_pdf Scenario.out_pdf
         None Scenario.fs0.
Proof.
  split.
  - destruct (password_matters_only_at_the_gate Scenario.os_ok Scenario.fs0
                Scenario.secret_pdf Scenario.out_pdf (Some "open")
                (Some "own")) as [_ H].
    by apply (H Scenario.doc_secret ScenarioFacts.fs0_secret_pdf).
  - destruct (password_matters_only_at_the_gate Scenario.os_ok Scenario.fs0
                Scenario.a_pdf Scenario.out_pdf (Some "anything") None)
      as [H _].
    apply H. intros d. rewrite ScenarioFacts.fs0_a_pdf. by intros [= <-].
Defined.

(** X6. The first loop of [main] looks at the name only.  If the first
    input holds nothing that parses as a PDF (a directory, a text file, or
    nothing at all), then whatever its name is and whatever the flags are,
    [strip_metadata] raises before it opens anything for writing, and the
    run returns 1 with every file as it was and nothing on stdout. *)
Theorem unreadable_first_input_changes_no_file
    (os : OS) (args : Args) (w : World) (p : Path) (rest : list Path) :
  comprehension (expand_resolve os) (inputs args) = Ok (p :: rest) ->
  (forall d, files w !! p <> Some (File (Pdf d))) ->
  (exists e, forall output_path pw,
     strip_metadata os p output_path pw (files w) = (Raise e, files w))
  /\ exists w',
       main os args w = (Ok 1%Z, w')
       /\ files w' = files w
       /\ stdout w' = stdout w.
Proof.
  intros Hres Hno.
  destruct (strip_metadata_unreadable os (files w) p Hno) as [e He].
  split; [by exists e|].
  rewrite (main_unfold os args _ w Hres).
  destruct (validate_loop_cases (p :: rest) w)
    as [(_ & ->)|(pre & q & post & _ & _ & _ & ->)]; [|by eexists].
  rewrite process_loop_cons.
  destruct (resolve_output_path os (files w) p (output args) (in_place args)
              (force args) (1 <? length (p :: rest))%nat) as [out|e'] eqn:Hr.
  - rewrite (process_one_strip_raises os _ _ _ out w e (files w)) by done.
    by eexists.
  - rewrite (process_one_resolve_raises os _ _ _ w e') by done.
    by eexists.
Qed.

Lemma unreadable_first_input_changes_no_file_witness :
  exists w',
    main Scenario.os_ok (MkArgs ["scans.pdf"] None false None false)
      (Scenario.world (<[ ["home"; "u"; "scans.pdf"] := Dir ]> Scenario.fs0))
    = (Ok 1%Z, w')
    /\ files w' = <[ ["home"; "u"; "scans.pdf"] := Dir ]> Scenario.fs0
    /\ stdout w' = [].
Proof.
  refine (proj2 (unreadable_first_input_changes_no_file Scenario.os_ok
                   (MkArgs ["scans.pdf"] None false None false)
                   (Scenario.world
                      (<[ ["home"; "u"; "scans.pdf"] := Dir ]> Scenario.fs0))
                   ["home"; "u"; "scans.pdf"] [] eq_refl _)).
  intros d. simpl. by rewrite lookup_insert_eq.
Defined.

(** X7. In the default mode and without the force flag, once an input has
    been processed, the step for any input with the same directory and the
    same stem (the same file listed twice, or [a.pdf] and [a.PDF]) raises
    the file-exists error for the output just written, and changes
    nothing. *)
Theorem same_stem_inputs_collide_without_force
    (os : OS) (args : Args) (multiple_inputs : bool) (p q : Path)
    (w w1 : World) :
  truthy (output args) = false ->
  in_place args = false ->
  force args = false ->
  process_one os args multiple_inputs p w = (Ok tt, w1) ->
  parent q = parent p ->
  stem q = stem p ->
  process_one os args multiple_inputs q w1
  = (Raise (Exn FileExistsError (msg_exists (stripped_sibling p))), w1).
Proof.
  intros Ht Hip Hf H Hpar Hstem.
  apply process_one_inv in H
    as [(e & _ & ? & _)|[(out & e & fs' & _ & _ & ? & _)
                        |(out & fs' & Hres & Hs & _ & ->)]]; [done|done|].
  rewrite Hip in Hres.
  apply resolve_output_path_default_inv in Hres as [-> Hn]; [|done].
  apply strip_metadata_ok_inv in Hs as (d & _ & Hs).
  pose proof (stripped_sibling_fresh p) as Hfresh.
  destruct Hs as [(? & _)|(_ & ->)]; [done|].
  assert (Hnq : name q <> "").
  { intros Hq. apply Hn, stem_empty. rewrite <- Hstem.
    unfold stem. by rewrite Hq. }
  assert (Hsame : stripped_sibling q = stripped_sibling p).
  { unfold stripped_sibling. by rewrite Hpar, Hstem. }
  apply process_one_resolve_raises. simpl.
  rewrite Hip, Hf, resolve_output_path_default, Hsame by done.
  unfold exists_. by rewrite lookup_insert_eq.
Qed.

Lemma same_stem_inputs_collide_without_force_witness :
  process_one Scenario.os_ok (MkArgs ["a.pdf"; "a.pdf"] None false None false)
    true Scenario.a_pdf
    (with_stdout_line (msg_processed Scenario.a_pdf Scenario.a_stripped)
       (with_files (<[Scenario.a_stripped :=
                        File (Pdf (stripped Scenario.doc_a))]> Scenario.fs0)
          (Scenario.world Scenario.fs0)))
  = (Raise (Exn FileExistsError (msg_exists (stripped_sibling Scenario.a_pdf))),
     with_stdout_line (msg_processed Scenario.a_pdf Scenario.a_stripped)
       (with_files (<[Scenario.a_stripped :=
                        File (Pdf (stripped Scenario.doc_a))]> Scenario.fs0)
          (Scenario.world Scenario.fs0))).
Proof.
  refine (same_stem_inputs_collide_without_force Scenario.os_ok
            (MkArgs ["a.pdf"; "a.pdf"] None false None false) true
            Scenario.a_pdf Scenario.a_pdf (Scenario.world Scenario.fs0) _
            eq_refl eq_refl eq_refl _ eq_refl eq_refl).
  apply (process_one_succeeds _ _ _ _ Scenario.a_stripped).
  - by vm_compute.
  - apply (strip_metadata_direct_ok _ _ _ _ _ Scenario.doc_a);
      [exact ScenarioFacts.fs0_a_pdf | reflexivity | by vm_compute
      | cbn [files Scenario.world]; by rewrite ScenarioFacts.fs0_a_stripped
      | reflexivity | reflexivity].
Defined.



(** X9. The exit code tells how many inputs were processed.  Whenever
    line 93 has resolved the inputs, [main] returns 0 or 1, and stdout is
    what it was followed by the lines of this run.  [main] returns 0 only
    when there is one such line per input, and 1 only when there are fewer
    lines than inputs. *)
Theorem exit_code_tells_how_many_were_processed
    (os : OS) (args : Args) (w : World) (input_paths : list Path) :
  comprehension (expand_resolve os) (inputs args) = Ok input_paths ->
  exists code w' lines,
    main os args w = (Ok code, w')
    /\ stdout w' = (stdout w ++ lines)%list
    /\ ((code = 0%Z /\ length lines = length input_paths)
        \/ (code = 1%Z /\ length lines < length input_paths)).
Proof.
  intros Hres. rewrite (main_unfold os args _ w Hres).
  destruct (validate_loop_cases input_paths w)
    as [(_ & ->)|(pre & q & post & -> & _ & _ & ->)].
  - destruct (process_loop os args _ input_paths w) as [[[]|exc] w2] eqn:Hrun.
    + destruct (process_loop_ok_steps _ _ _ _ _ _ Hrun) as (outs & Hst & Hout).
      eexists _, _, _. split; [done|]. split; [exact Hout|]. left.
      split; [done|].
      assert (Hn : length outs = length input_paths).
      { clear -Hst. induction Hst; simpl; [done|]. by f_equal. }
      rewrite length_zip_with. lia.
    + destruct (process_loop_raise_inv _ _ _ _ _ _ _ Hrun)
        as (k & p & w_k & Hk & Hpre & Hone).
      pose proof (lookup_lt_Some _ _ _ Hk) as Hlt.
      destruct (process_one_raise_streams _ _ _ _ _ _ _ Hone) as [Ho _].
      destruct (process_loop_ok_steps _ _ _ _ _ _ Hpre) as (outs & _ & Hout).
      eexists _, _, _. split; [done|]. simpl. rewrite Ho.
      split; [exact Hout|]. right. split; [done|].
      rewrite length_zip_with, length_take. lia.
  - exists 1%Z, (with_stderr_line (validation_error (files w) q) w), [].
    split; [done|]. simpl. rewrite app_nil_r. split; [done|]. right.
    split; [done|]. rewrite length_app. simpl. lia.
Qed.

Lemma exit_code_tells_how_many_were_processed_witness :
  exists code w' lines,
    main Scenario.os_ok (MkArgs ["a.pdf"; "b.pdf"] None false None false)
      (Scenario.world Scenario.fs_taken) = (Ok code, w')
    /\ stdout w' = ([] ++ lines)%list
    /\ ((code = 0%Z /\ length lines = 2)
        \/ (code = 1%Z /\ length lines < 2)).
Proof.
  exact (exit_code_tells_how_many_were_processed Scenario.os_ok
           (MkArgs ["a.pdf"; "b.pdf"] None false None false)
           (Scenario.world Scenario.fs_taken)
           [Scenario.a_pdf; Scenario.b_pdf] eq_refl).
Defined.

(** X10. Stripping is idempotent on content.  If a run of
    [strip_metadata] has written a file, a second successful run that
    reads that file (in place, or to any other output path, with any
    password, on any operating system) writes the very same document. *)
Theorem stripping_a_stripped_file_writes_the_same_document
    (os os' : OS) (fs fs1 fs2 : FileSys) (input_path output_path output_path' : Path)
    (password password' : option string) :
  strip_metadata os input_path output_path password fs = (Ok tt, fs1) ->
  strip_metadata os' output_path output_path' password' fs1 = (Ok tt, fs2) ->
  fs2 !! output_path' = fs1 !! output_path.
Proof.
  intros H1 H2.
  apply strip_metadata_ok_inv in H1 as (d & _ & H1).
  assert (Hfirst : fs1 !! output_path = Some (File (Pdf (stripped d)))).
  { destruct H1 as [(-> & tmp & _ & ->)|(_ & ->)]; apply lookup_insert_eq. }
  apply strip_metadata_ok_inv in H2 as (d2 & Hin2 & H2).
  rewrite Hfirst in Hin2. injection Hin2 as <-.
  rewrite Hfirst.
  destruct H2 as [(-> & tmp & _ & ->)|(_ & ->)]; apply lookup_insert_eq.
Qed.

Lemma stripping_a_stripped_file_writes_the_same_document_witness :
  (<[Scenario.a_pdf := File (Pdf (stripped (stripped Scenario.doc_a)))]>
     (delete (tmp_sibling Scenario.a_pdf)
        (<[Scenario.a_pdf := File (Pdf (stripped Scenario.doc_a))]>
           (delete Scenario.a_tmp Scenario.fs0))) : FileSys)
    !! Scenario.a_pdf
  = (<[Scenario.a_pdf := File (Pdf (stripped Scenario.doc_a))]>
       (delete Scenario.a_tmp Scenario.fs0) : FileSys) !! Scenario.a_pdf.
Proof.
  apply (stripping_a_stripped_file_writes_the_same_document
           Scenario.os_ok Scenario.os_ok Scenario.fs0 _ _
           Scenario.a_pdf Scenario.a_pdf Scenario.a_pdf None None).
  - exact ScenarioFacts.in_place_a.
  - apply strip_metadata_in_place_ok.
    + apply lookup_insert_eq.
    + reflexivity.
    + by vm_compute.
    + rewrite lookup_insert_ne by (by vm_compute).
      change (tmp_sibling Scenario.a_pdf) with Scenario.a_tmp.
      by rewrite lookup_delete_eq.
    + exact ScenarioFacts.os_ok_fault_free.
Defined.



(** X12. A run on one input with an explicit output argument writes
    there.  Let the single input hold a PDF document under a name ending
    in [.pdf], with a password that passes the gate if the document is
    encrypted, on an operating system that refuses nothing, and let the
    non-empty output argument resolve to a path other than the input.  If
    nothing is at that path, or the force flag is set and no directory is
    there, [main] returns 0, that path holds the stripped document,
    whatever it held before and whatever its name is, and the one
    [Processed] line has been added to stdout. *)
Theorem explicit_output_run_writes_there
    (os : OS) (args : Args) (w : World) (s so : string) (p out : Path)
    (d : Document) :
  inputs args = [s] ->
  expand_resolve os s = Ok p ->
  output args = Some so ->
  so <> "" ->
  expand_resolve os so = Ok out ->
  in_place args = false ->
  out <> p ->
  files w !! p = Some (File (Pdf d)) ->
  lower (suffix p) = ".pdf" ->
  password_opens d (password args) = true ->
  fault_free os ->
  files w !! out = None
  \/ (force args = true /\ files w !! out <> Some Dir) ->
  exists w',
    main os args w = (Ok 0%Z, w')
    /\ files w' !! out = Some (File (Pdf (stripped d)))
    /\ stdout w' = (stdout w ++ [msg_processed p out])%list.
Proof.
  intros Hins Hp Hout Hso Hres_out Hip Hne Hin Hsuf Hpw Hff Hfree.
  assert (Hres : comprehension (expand_resolve os) (inputs args) = Ok [p]).
  { rewrite Hins. simpl. by rewrite Hp. }
  assert (Hvalid : Forall (fun q => valid_input (files w) q = true) [p]).
  { repeat constructor. unfold valid_input, exists_. rewrite Hin, Hsuf.
    reflexivity. }
  rewrite (main_unfold os args _ w Hres), validate_loop_pass by done.
  rewrite process_loop_cons.
  rewrite (process_one_succeeds os _ _ _ out w
             (<[out := File (Pdf (stripped d))]> (files w))).
  - eexists. split; [done|]. simpl. by rewrite lookup_insert_eq.
  - rewrite Hout, Hip. unfold resolve_output_path, output_candidate. simpl.
    destruct (String.eqb_spec so ""); [done|]. simpl. rewrite Hres_out. simpl.
    unfold exists_. destruct Hfree as [->|[-> _]]; [done|].
    by rewrite andb_false_r.
  - destruct Hff as (Hop & Hwr & _).
    apply strip_metadata_direct_ok; try done.
    destruct Hfree as [->|[_ ?]]; done.
Qed.

Lemma explicit_output_run_writes_there_witness :
  exists w',
    main Scenario.os_ok (MkArgs ["a.pdf"] (Some "b.pdf") false None true)
      (Scenario.world Scenario.fs0) = (Ok 0%Z, w')
    /\ files w' !! Scenario.b_pdf
       = Some (File (Pdf (stripped Scenario.doc_a)))
    /\ stdout w' = ([] ++ [msg_processed Scenario.a_pdf Scenario.b_pdf])%list.
Proof.
  refine (explicit_output_run_writes_there Scenario.os_ok
            (MkArgs ["a.pdf"] (Some "b.pdf") false None true)
            (Scenario.world Scenario.fs0) "a.pdf" "b.pdf" Scenario.a_pdf
            Scenario.b_pdf Scenario.doc_a eq_refl eq_refl eq_refl _ eq_refl
            eq_refl _ ScenarioFacts.fs0_a_pdf eq_refl eq_refl
            ScenarioFacts.os_ok_fault_free _).
  - done.
  - done.
  - right. split; [reflexivity|]. cbn [files Scenario.world].
    by rewrite ScenarioFacts.fs0_b_pdf.
Defined.
